(** * Emotional climate: a shallow embedding of [emotional_climate.py]

    Python [str] values are modelled as Rocq [string]s whose characters are
    the code points 0..255 (Latin-1); the character classes of the Python
    runtime ([\w] of the [re] module, [str.isspace]) are written out for
    that range.  Python numbers ([int] and [float]) are modelled as exact
    rationals [Q]; NumPy's [nan] is a constructor of its own.

    The [isinstance(..., str)] / [isinstance(..., list)] guards of the
    source always pass on the typed inputs of this model, so their
    [TypeError] branches do not appear. *)

From Stdlib Require Import Ascii String List ZArith QArith Bool Lia.
From Stdlib Require Import Sorting.Sorted Sorting.Permutation.
Import ListNotations.

Open Scope string_scope.

(* ------------------------------------------------------------------ *)
(** ** Python runtime: errors, numbers, characters *)

(** The exceptions raised by the code.  An [IndexError] of
    [extract_feeling] carries the numbers its message prints. *)
Inductive py_error :=
| TypeError
| ValueError
| IndexError_negative (subgroup : Z)
| IndexError_range (words_matched : nat) (subgroup : Z).

Inductive result (A : Type) :=
| Ok (a : A)
| Err (e : py_error).
Arguments Ok {A} a.
Arguments Err {A} e.

Definition is_index_error {A} (r : result A) : bool :=
  match r with
  | Err (IndexError_negative _) | Err (IndexError_range _ _) => true
  | _ => false
  end.

(** A Python numeric value as produced by the code: a number, or NumPy's
    [nan]. *)
Inductive num :=
| Num (q : Q)
| NaN.

Definition Qltb (x y : Q) : bool := negb (Qle_bool y x).

(** Python's [<] on numbers; any comparison with [nan] is [False]. *)
Definition num_lt (a b : num) : bool :=
  match a, b with
  | Num x, Num y => Qltb x y
  | _, _ => false
  end.

(** Python's [==] on numbers; [nan == nan] is [False]. *)
Definition num_eqb (a b : num) : bool :=
  match a, b with
  | Num x, Num y => Qeq_bool x y
  | _, _ => false
  end.

Definition newline : ascii := Ascii.ascii_of_nat 10.

(** [str.isspace] on Latin-1 code points. *)
Definition is_space (c : ascii) : bool :=
  let n := Ascii.nat_of_ascii c in
  (((9 <=? n) && (n <=? 13)) || ((28 <=? n) && (n <=? 32))
  || (n =? 133) || (n =? 160))%nat.

(** [\w] of Python's [re] on [str] patterns, on Latin-1 code points:
    [_] and the characters with [str.isalnum]. *)
Definition is_word (c : ascii) : bool :=
  let n := Ascii.nat_of_ascii c in
  let between (a b : nat) := ((a <=? n) && (n <=? b))%nat in
  (between 48 57 || between 65 90 || between 97 122 || (n =? 95)
  || (n =? 170) || between 178 179 || (n =? 181)
  || between 185 186 || between 188 190
  || between 192 214 || between 216 246 || between 248 255)%nat.

(* ------------------------------------------------------------------ *)
(** ** Python string and list primitives *)

(** [s[n:]] for [n >= 0]. *)
Fixpoint str_drop (n : nat) (s : string) : string :=
  match n, s with
  | O, _ => s
  | S n', String _ r => str_drop n' r
  | S _, EmptyString => EmptyString
  end.

(** [s.replace(old, new)] for a one-character [old] and [new]. *)
Fixpoint replace_char (old new : ascii) (s : string) : string :=
  match s with
  | EmptyString => EmptyString
  | String c r =>
      String (if Ascii.eqb c old then new else c) (replace_char old new r)
  end.

(** [s.find(c)] for a one-character [c]: the first index, or [-1]. *)
Fixpoint find_index (c : ascii) (s : string) : option nat :=
  match s with
  | EmptyString => None
  | String d r =>
      if Ascii.eqb d c then Some O
      else option_map S (find_index c r)
  end.

Definition py_find (s : string) (c : ascii) : Z :=
  match find_index c s with
  | Some i => Z.of_nat i
  | None => (-1)%Z
  end.

(** [s.lstrip()], [s.rstrip()] and [s.strip()]. *)
Fixpoint lstrip (s : string) : string :=
  match s with
  | EmptyString => EmptyString
  | String c r => if is_space c then lstrip r else s
  end.

Fixpoint rstrip (s : string) : string :=
  match s with
  | EmptyString => EmptyString
  | String c r =>
      let r' := rstrip r in
      match r' with
      | EmptyString => if is_space c then EmptyString else String c EmptyString
      | _ => String c r'
      end
  end.

Definition py_strip (s : string) : string := rstrip (lstrip s).

(** [s.split(sep)] for a non-empty [sep]: the pieces between the
    non-overlapping occurrences of [sep], scanned left to right; [acc] is
    the piece read so far.  Each step consumes at least one character, so
    [S (length s)] steps are enough. *)
Fixpoint split_fuel (fuel : nat) (sep s acc : string) : list string :=
  match fuel with
  | O => [acc ++ s]
  | S f =>
      match s with
      | EmptyString => [acc]
      | String c r =>
          if String.prefix sep s
          then acc :: split_fuel f sep (str_drop (String.length sep) s) ""
          else split_fuel f sep r (acc ++ String c EmptyString)
      end
  end.

Definition str_split (sep s : string) : list string :=
  split_fuel (S (String.length s)) sep s "".

(** [s.split(sep)]: an empty separator raises [ValueError]. *)
Definition py_split (s sep : string) : result (list string) :=
  match sep with
  | EmptyString => Err ValueError
  | _ => Ok (str_split sep s)
  end.

(** List slicing [l[lo:hi]] with step 1: negative indices count from the
    end, then both bounds are clamped to [0, len(l)]. *)
Definition slice_index (n i : Z) : Z :=
  if (i <? 0)%Z then Z.max 0 (i + n) else Z.min i n.

Definition py_slice {A} (l : list A) (lo hi : Z) : list A :=
  let n := Z.of_nat (List.length l) in
  let a := slice_index n lo in
  let b := slice_index n hi in
  firstn (Z.to_nat (b - a)) (skipn (Z.to_nat a) l).

(* ------------------------------------------------------------------ *)
(** ** [re.findall(r"\[(\w+)\]", data)] *)

(** The maximal run of word characters at the head of [s], and the rest. *)
Fixpoint take_word (s : string) : string * string :=
  match s with
  | EmptyString => (EmptyString, EmptyString)
  | String c r =>
      if is_word c then let (w, rest) := take_word r in (String c w, rest)
      else (EmptyString, s)
  end.

(** An attempt of the pattern at the head of [s]: the group and the text
    after the match.  Backtracking [\w+] to a shorter run would leave a
    word character, never [']'], in front of the closing bracket, so only
    the maximal run can match. *)
Definition match_at (s : string) : option (string * string) :=
  match s with
  | String "[" r =>
      let (w, rest) := take_word r in
      match w, rest with
      | String _ _, String "]" rest' => Some (w, rest')
      | _, _ => None
      end
  | _ => None
  end.

(** [findall]: try at each position; after a match resume at its end,
    otherwise one character further. *)
Fixpoint findall_fuel (fuel : nat) (s : string) : list string :=
  match fuel with
  | O => []
  | S f =>
      match s with
      | EmptyString => []
      | String _ r =>
          match match_at s with
          | Some (w, rest) => w :: findall_fuel f rest
          | None => findall_fuel f r
          end
      end
  end.

Definition findall_bracketed (data : string) : list string :=
  findall_fuel (S (String.length data)) data.

(* ------------------------------------------------------------------ *)
(** ** The functions of [emotional_climate.py] *)

(** [extract_feeling(data, subgroup=0)]. *)
Definition extract_feeling (data : string) (subgroup : Z) : result string :=
  if (subgroup <? 0)%Z then Err (IndexError_negative subgroup)
  else
    let match_ := findall_bracketed data in
    let number_of_matches := List.length match_ in
    if (Z.of_nat number_of_matches <=? subgroup)%Z
    then Err (IndexError_range number_of_matches subgroup)
    else Ok (nth (Z.to_nat subgroup) match_ EmptyString).

(** [strip_data(raw_data)]:
    [cleaned[cleaned.find(']') + 1:].strip()]. *)
Definition strip_data (raw_data : string) : string :=
  let cleaned := replace_char newline " " raw_data in
  py_strip (str_drop (Z.to_nat (py_find cleaned "]" + 1)) cleaned).

(** The lines [clean_data] prints.  Only the first [except] clause can
    fire: [strip_data] raises only on non-strings. *)
Inductive diagnostic :=
| Diag_extract (e : py_error).

(** One iteration of the [for] loop of [clean_data], on the printed lines
    and [cleaned_data_tuple]. *)
Definition clean_step (st : list diagnostic * list (string * string))
    (data : string) : list diagnostic * list (string * string) :=
  let (printed, cleaned_data_tuple) := st in
  match extract_feeling data 0 with
  | Err error => ((printed ++ [Diag_extract error])%list, cleaned_data_tuple)
  | Ok clean_feeling =>
      let cleaned_data := strip_data data in
      (printed, (cleaned_data_tuple ++ [(clean_feeling, cleaned_data)])%list)
  end.

(** [clean_data(raw_data)]: the printed lines and the return value;
    [if cleaned_data_tuple: return cleaned_data_tuple] falls off the end,
    returning [None], when the list is empty. *)
Definition clean_data (raw_data : list string)
    : list diagnostic * option (list (string * string)) :=
  let (printed, cleaned_data_tuple) := fold_left clean_step raw_data ([], []) in
  (printed, match cleaned_data_tuple with
            | [] => None
            | _ => Some cleaned_data_tuple
            end).

(** [weight_for_time_interval] of [find_weights]. *)
Definition weight_for_time_interval : list (string * Q) :=
  [("Never", 0); ("Sometimes", 1 # 3); ("Often", 2 # 3); ("Always", 1)].

Fixpoint dict_get (d : list (string * Q)) (k : string) : option Q :=
  match d with
  | [] => None
  | (k', v) :: d' => if String.eqb k k' then Some v else dict_get d' k
  end.

(** [find_weights(data)]; [None] is the absence of a mapping. *)
Definition find_weights (data : string) : list (option Q) :=
  map (fun time_interval => dict_get weight_for_time_interval time_interval)
      (str_split " " data).

(** ** [numpy.mean] on a Python list *)

(** [np.add.reduce] on an object array: [acc + w] from the first element
    on; [None] in an addition raises [TypeError]. *)
Fixpoint object_add_reduce (acc : option Q) (ws : list (option Q))
    : result (option Q) :=
  match ws with
  | [] => Ok acc
  | w :: ws' =>
      match acc, w with
      | Some a, Some b => object_add_reduce (Some (a + b)%Q) ws'
      | _, _ => Err TypeError
      end
  end.

(** [np.mean(weights)]: [nan] on the empty list (with a warning); else the
    sum divided by the count, where a [None] that survives the reduction
    (a one-element [[None]]) fails in [None / 1]. *)
Definition np_mean (ws : list (option Q)) : result num :=
  match ws with
  | [] => Ok NaN
  | w0 :: rest =>
      match object_add_reduce w0 rest with
      | Ok (Some total) => Ok (Num (total / inject_Z (Z.of_nat (List.length ws))))
      | Ok None => Err TypeError
      | Err e => Err e
      end
  end.

(** ** [class Data] *)

Record Data := mkData {
  feeling : string;
  data : string;
  weights : list (option Q);
  average_weight : num
}.

(** [Data.__init__(feeling, data)]. *)
Definition Data_init (feeling data : string) : Data :=
  {| feeling := feeling; data := data; weights := []; average_weight := Num 0 |}.

(** A method call on a [Data] object: the object afterwards, and the
    exception the call raised, if any. *)
Definition method_outcome := (Data * option py_error)%type.

(** [update_average_weight(self)]. *)
Definition update_average_weight (self : Data) : method_outcome :=
  match np_mean (weights self) with
  | Ok m =>
      ({| feeling := feeling self; data := data self; weights := weights self;
          average_weight := m |}, None)
  | Err e => (self, Some e)
  end.

(** [update_weights(self, new_weights)]: [self.weights] is assigned before
    the average is recomputed. *)
Definition update_weights (self : Data) (new_weights : list (option Q))
    : method_outcome :=
  update_average_weight
    {| feeling := feeling self; data := data self; weights := new_weights;
       average_weight := average_weight self |}.

(** ** The registry [clean_data_objects] *)

Definition registry := list Data.

(** [populate_dataset(feeling, feeling_data)] appends to the global list. *)
Definition populate_dataset (feeling feeling_data : string) (clean_data_objects : registry)
    : registry :=
  (clean_data_objects ++ [Data_init feeling feeling_data])%list.

(** ** [list.sort(key=..., reverse=True)] *)

Section PySort.
Variable A : Type.
(** The [<] the sort compares keys with. *)
Variable lt : A -> A -> bool.

(** Insertion into a list sorted ascending: [x], which comes before every
    element of [l] in the input, goes in front of the first element that is
    not smaller, so equal elements keep their input order. *)
Fixpoint insert_stable (x : A) (l : list A) : list A :=
  match l with
  | [] => [x]
  | y :: ys => if lt y x then y :: insert_stable x ys else x :: l
  end.

Fixpoint stable_sort (l : list A) : list A :=
  match l with
  | [] => []
  | x :: l' => insert_stable x (stable_sort l')
  end.

(** CPython's [list.sort] is a stable sort (timsort) on [<]; with
    [reverse=True] it reverses the list, sorts stably, and reverses the
    result.  A stable sort's output is determined by the order alone, so
    insertion sort stands for timsort here. *)
Definition sort_reverse (l : list A) : list A :=
  rev (stable_sort (rev l)).

End PySort.
Arguments insert_stable {A} lt x l.
Arguments stable_sort {A} lt l.
Arguments sort_reverse {A} lt l.

(** [order_weights(data_objects)]: the pairs it prints, in order. *)
Definition order_weights (data_objects : registry) : list (string * num) :=
  let weights := map (fun o => (feeling o, average_weight o)) data_objects in
  sort_reverse (fun p1 p2 => num_lt (snd p1) (snd p2)) weights.

(** ** [get_data_from_file]: the slicing step *)

(** [data[lower_index:upper_index]], or [data[lower_index:len(data)]] when
    [upper_index] is [None]. *)
Definition slice_blocks (data : list string) (lower_index : Z)
    (upper_index : option Z) : list string :=
  match upper_index with
  | Some u => py_slice data lower_index u
  | None => py_slice data lower_index (Z.of_nat (List.length data))
  end.

(** [get_data_from_file] once the file content is read:
    [data_file.read().split(delimiter)], then the slice. *)
Definition segment (source_text delimiter : string) (lower_index : Z)
    (upper_index : option Z) : result (list string) :=
  match py_split source_text delimiter with
  | Err e => Err e
  | Ok data => Ok (slice_blocks data lower_index upper_index)
  end.


(** ** [get_data_from_file] and [main] *)

(** What ends a run: [get_data_from_file]'s [FileNotFoundError], or an
    exception raised further on. *)
Inductive run_error :=
| FileNotFoundError (name : string)
| Raised (e : py_error).

Inductive outcome (A : Type) :=
| Done (a : A)
| Failed (e : run_error).
Arguments Done {A} a.
Arguments Failed {A} e.

(** The files [os.path.isfile] finds, with their content. *)
Definition file_system := string -> option string.

(** [get_data_from_file(file_to_read_from, delimiter, lower_index=0,
    upper_index=None)]. *)
Definition get_data_from_file (fs : file_system) (file_to_read_from delimiter : string)
    (lower_index : Z) (upper_index : option Z) : outcome (list string) :=
  match fs file_to_read_from with
  | None => Failed (FileNotFoundError file_to_read_from)
  | Some content =>
      match segment content delimiter lower_index upper_index with
      | Ok data => Done data
      | Err e => Failed (Raised e)
      end
  end.

Definition DELIMITER : string := "---".

(** [for data_object in clean_data_objects:
       data_object.update_weights(find_weights(data_object.data))]:
    the objects afterwards, and the exception that stopped the loop. *)
Fixpoint update_all (clean_data_objects : registry) : registry * option py_error :=
  match clean_data_objects with
  | [] => ([], None)
  | o :: rest =>
      match update_weights o (find_weights (data o)) with
      | (o', Some e) => (o' :: rest, Some e)
      | (o', None) =>
          let (rest', err) := update_all rest in (o' :: rest', err)
      end
  end.

(** [main()], run once on a fresh module ([clean_data_objects = []]): the
    diagnostics [clean_data] prints, and either the ranking
    [order_weights] prints or the exception that ends the run.  When
    [clean_data] returns [None], [for data in cleaned_data] raises
    [TypeError]. *)
Definition main (fs : file_system) : list diagnostic * outcome (list (string * num)) :=
  match get_data_from_file fs "EmotionalClimateData.dat" DELIMITER 5 (Some 15%Z) with
  | Failed e => ([], Failed e)
  | Done raw_data =>
      let (printed, cleaned_data) := clean_data raw_data in
      match cleaned_data with
      | None => (printed, Failed (Raised TypeError))
      | Some pairs =>
          let clean_data_objects :=
            fold_left (fun reg d => populate_dataset (fst d) (snd d) reg) pairs [] in
          match update_all clean_data_objects with
          | (objs, None) => (printed, Done (order_weights objs))
          | (_, Some e) => (printed, Failed (Raised e))
          end
      end
  end.

(* ------------------------------------------------------------------ *)
(** ** Concrete data *)

(** The block of the [clean_data] docstring. *)
Definition scenario_block : string :=
  String newline ("How do you feel when you're at school? [Supported]"
  ++ String newline ("Often" ++ String newline ("Always"
  ++ String newline ("Often" ++ String newline ("Often"
  ++ String newline ("Sometimes" ++ String newline "Never")))))).

Definition scenario_body : string := "Often Always Often Often Sometimes Never".

Definition scenario_weights : list (option Q) :=
  [Some (2 # 3); Some 1; Some (2 # 3); Some (2 # 3); Some (1 # 3); Some 0].

(** A registry in the state [main] leaves it in before ranking. *)
Definition ranking_example : registry :=
  [Data_init "Bored" "Never"; Data_init "Tired" "Often";
   {| feeling := "Supported"; data := scenario_body;
      weights := scenario_weights; average_weight := Num (5 # 9) |}].

(** The number of occurrences of a character. *)
Fixpoint count_char (c : ascii) (s : string) : nat :=
  match s with
  | EmptyString => O
  | String d r => (if Ascii.eqb d c then 1 else 0) + count_char c r
  end.

(** The pairs of the blocks whose feeling is extracted, in block order. *)
Definition surviving_pairs (raw_data : list string) : list (string * string) :=
  flat_map (fun d => match extract_feeling d 0 with
                     | Ok f => [(f, strip_data d)]
                     | Err _ => []
                     end) raw_data.

(** One diagnostic per block whose extraction raises, in block order. *)
Definition extraction_diagnostics (raw_data : list string) : list diagnostic :=
  flat_map (fun d => match extract_feeling d 0 with
                     | Ok _ => []
                     | Err e => [Diag_extract e]
                     end) raw_data.

Definition none_if_empty {A} (l : list A) : option (list A) :=
  match l with
  | [] => None
  | _ => Some l
  end.

(** The arithmetic mean of a list of numbers, as the spec words it
    (undefined, [nan], for the empty list). *)
Definition arithmetic_mean (qs : list Q) : num :=
  match qs with
  | [] => NaN
  | _ => Num (fold_right Qplus 0 qs / inject_Z (Z.of_nat (List.length qs)))
  end.

(** Equality of numeric values, [nan] being equal to itself. *)
Definition num_same (a b : num) : Prop :=
  match a, b with
  | Num x, Num y => (x == y)%Q
  | NaN, NaN => True
  | _, _ => False
  end.

(** The blocks at the positions [i] with [lo <= i < hi], [k] being the
    position of the head of [l]: the half-open range [[lo, hi)] read
    literally. *)
Fixpoint positions_from {A} (k lo hi : Z) (l : list A) : list A :=
  match l with
  | [] => []
  | x :: l' =>
      ((if ((lo <=? k) && (k <? hi))%Z then [x] else [])
       ++ positions_from (k + 1) lo hi l')%list
  end.

Definition interval_slice {A} (l : list A) (lo hi : Z) : list A :=
  positions_from 0 lo hi l.

(** All characters are whitespace. *)
Fixpoint all_space (s : string) : bool :=
  match s with
  | EmptyString => true
  | String c r => is_space c && all_space r
  end.

(** All characters are word characters. *)
Fixpoint all_word (s : string) : bool :=
  match s with
  | EmptyString => true
  | String c r => is_word c && all_word r
  end.

(** [s.split(" ")] without fuel: a space ends the current piece. *)
Fixpoint split_space (s acc : string) : list string :=
  match s with
  | EmptyString => [acc]
  | String c r =>
      if Ascii.eqb c " " then acc :: split_space r ""
      else split_space r (acc ++ String c EmptyString)
  end.

(** The words of [weight_for_time_interval]. *)
Definition lexicon : list string := map fst weight_for_time_interval.

(** The value [update_weights] leaves in [average_weight] for a body
    (the average is left unchanged when the mean raises). *)
Definition body_average (body : string) : num :=
  match np_mean (find_weights body) with
  | Ok m => m
  | Err _ => NaN
  end.

(** The blocks [main] reads from [EmotionalClimateData.dat]:
    [get_data_from_file("EmotionalClimateData.dat", DELIMITER, 5, 15)]. *)
Definition main_blocks (content : string) : list string :=
  slice_blocks (str_split DELIMITER content) 5 (Some 15%Z).

(** A body whose words, split on spaces, are all keys of
    [weight_for_time_interval]. *)
Definition known_body (b : string) : Prop :=
  forall t, In t (str_split " " b) -> In t lexicon.

(** The record [update_weights] leaves for a pair, when it does not raise. *)
Definition final_object (p : string * string) : Data :=
  {| feeling := fst p; data := snd p; weights := find_weights (snd p);
     average_weight := body_average (snd p) |}.

(** A file system holding one file. *)
Definition single_file (name content : string) : file_system :=
  fun n => if String.eqb n name then Some content else None.

(* ------------------------------------------------------------------ *)
(** ** Lemmas on the string primitives *)

Lemma str_append_assoc (a b c : string) : (a ++ b) ++ c = a ++ (b ++ c).
Proof. induction a as [|x a IH]; simpl; [reflexivity | now rewrite IH]. Qed.

Lemma str_append_nil_r (a : string) : a ++ "" = a.
Proof. induction a as [|x a IH]; simpl; [reflexivity | now rewrite IH]. Qed.

Lemma split_fuel_nonempty fuel sep s acc : split_fuel fuel sep s acc <> [].
Proof.
  revert s acc; induction fuel as [|f IH]; intros s acc; simpl; [discriminate|].
  destruct s as [|c r]; [discriminate|].
  destruct (String.prefix sep (String c r)); [discriminate | apply IH].
Qed.

Lemma prefix_space (c : ascii) (r : string) :
  String.prefix " " (String c r) = Ascii.eqb c " ".
Proof.
  cbn -[ascii_dec Ascii.eqb]. destruct (ascii_dec " " c) as [E|Hne].
  - subst c. rewrite Ascii.eqb_refl. destruct r; reflexivity.
  - symmetry. apply Ascii.eqb_neq. congruence.
Qed.

(** Splitting on one space: the pieces joined by spaces give back the text,
    and there is one piece more than there are spaces. *)
Lemma split_space_fuel (s : string) : forall fuel acc,
  (String.length s < fuel)%nat ->
  String.concat " " (split_fuel fuel " " s acc) = acc ++ s
  /\ List.length (split_fuel fuel " " s acc) = S (count_char " " s).
Proof.
  induction s as [|c r IH]; intros fuel acc Hf;
    (destruct fuel as [|f]; [simpl in Hf; lia|]).
  - simpl. now rewrite str_append_nil_r.
  - simpl in Hf. cbn [split_fuel]. rewrite prefix_space.
    destruct (Ascii.eqb c " ") eqn:Ec.
    + apply Ascii.eqb_eq in Ec. subst c.
      simpl str_drop. destruct (IH f "" ltac:(lia)) as [Hc Hl].
      split.
      * destruct (split_fuel f " " r "") as [|p ps] eqn:E;
          [exfalso; exact (split_fuel_nonempty _ _ _ _ E)|].
        change (acc ++ " " ++ String.concat " " (p :: ps) = acc ++ String " " r).
        rewrite Hc. reflexivity.
      * simpl. rewrite Hl. reflexivity.
    + destruct (IH f (acc ++ String c "") ltac:(lia)) as [Hc Hl].
      split.
      * rewrite Hc, str_append_assoc. reflexivity.
      * rewrite Hl. simpl. rewrite Ec. reflexivity.
Qed.

(* ------------------------------------------------------------------ *)
(** ** Claims *)

(** C1 (as stated): the scenario block is cleaned to
    [("Supported", "Often Always Often Often Sometimes Never")], whose
    weights are [[2/3, 1, 2/3, 2/3, 1/3, 0]]; their mean is not [11/18]. *)
Lemma scenario_mean_is_not_11_18 :
  ~ (snd (clean_data [scenario_block]) = Some [("Supported", scenario_body)]
     /\ find_weights scenario_body = scenario_weights
     /\ exists m, np_mean scenario_weights = Ok (Num m) /\ (m == 11 # 18)%Q).
Proof.
  intros [_ [_ [m [Hm Heq]]]].
  vm_compute in Hm. injection Hm as <-.
  unfold Qeq in Heq. vm_compute in Heq. discriminate.
Qed.

(** C1 (amended): [clean_data] turns the scenario block into exactly
    [("Supported", "Often Always Often Often Sometimes Never")] without a
    diagnostic, [find_weights] maps that body to exactly
    [[2/3, 1, 2/3, 2/3, 1/3, 0]], and the mean of these weights, as
    [update_weights] computes it, is [5/9] (about 0.556). *)
Theorem scenario_end_to_end :
  clean_data [scenario_block] = ([], Some [("Supported", scenario_body)])
  /\ find_weights scenario_body = scenario_weights
  /\ exists m, np_mean scenario_weights = Ok (Num m) /\ (m == 5 # 9)%Q.
Proof.
  split; [vm_compute; reflexivity|]. split; [vm_compute; reflexivity|].
  eexists. split; [vm_compute; reflexivity|]. reflexivity.
Qed.

(** C2: for every text, [find_weights] returns one entry per piece of
    [text.split(" ")] -- one more than the number of spaces, empty pieces
    included -- and the entry of each piece is the table's weight for
    "Never", "Sometimes", "Often" and "Always" (0, 1/3, 2/3, 1) and [None]
    for any other piece, at the piece's position.  The result is a plain
    list: no exception is raised. *)
Theorem find_weights_total (body : string) :
  List.length (find_weights body) = List.length (str_split " " body)
  /\ List.length (find_weights body) = S (count_char " " body)
  /\ String.concat " " (str_split " " body) = body
  /\ (forall i tok, nth_error (str_split " " body) i = Some tok ->
      nth_error (find_weights body) i =
        Some (if String.eqb tok "Never" then Some 0
              else if String.eqb tok "Sometimes" then Some (1 # 3)
              else if String.eqb tok "Often" then Some (2 # 3)
              else if String.eqb tok "Always" then Some 1
              else None)).
Proof.
  destruct (split_space_fuel body (S (String.length body)) "" ltac:(lia))
    as [Hc Hl].
  unfold find_weights. rewrite length_map.
  split; [reflexivity|]. split; [exact Hl|]. split; [exact Hc|].
  intros i tok H. rewrite nth_error_map, H. simpl.
  reflexivity.
Qed.

Lemma find_weights_total_witness :
  nth_error (find_weights "Always  Never") 1%nat = Some None
  /\ List.length (find_weights "Always  Never") = 3%nat.
Proof.
  split.
  - apply (proj2 (proj2 (proj2 (find_weights_total "Always  Never"))) 1%nat "").
    reflexivity.
  - apply (proj1 (proj2 (find_weights_total "Always  Never"))).
Defined.

(** C5: for a non-negative [subgroup], [extract_feeling] raises
    [IndexError] exactly when [subgroup] is at least the number of
    [[word]] matches, and returns the [subgroup]-th match otherwise; on a
    block without any match, the default [subgroup = 0] raises
    [IndexError] and never yields the empty string. *)
Theorem extract_feeling_out_of_range (block : string) (subgroup : Z)
    (Hnonneg : (0 <= subgroup)%Z) :
  (is_index_error (extract_feeling block subgroup) = true
   <-> (Z.of_nat (List.length (findall_bracketed block)) <= subgroup)%Z)
  /\ ((subgroup < Z.of_nat (List.length (findall_bracketed block)))%Z ->
      extract_feeling block subgroup
      = Ok (nth (Z.to_nat subgroup) (findall_bracketed block) ""))
  /\ (findall_bracketed block = [] ->
      extract_feeling block 0 = Err (IndexError_range 0 0)
      /\ extract_feeling block 0 <> Ok "").
Proof.
  unfold extract_feeling.
  assert (Hneg : (subgroup <? 0)%Z = false) by (apply Z.ltb_ge; lia).
  rewrite Hneg.
  split; [|split].
  - destruct (Z.leb_spec (Z.of_nat (List.length (findall_bracketed block))) subgroup);
      simpl; split; intro H'; try reflexivity; try discriminate; lia.
  - intro Hlt. destruct (Z.leb_spec (Z.of_nat (List.length (findall_bracketed block))) subgroup);
      [lia | reflexivity].
  - intros Hnil. rewrite Hnil. simpl. split; [reflexivity | discriminate].
Qed.

Lemma extract_feeling_out_of_range_witness :
  (0 <= 0)%Z /\ findall_bracketed "no brackets here" = []
  /\ extract_feeling "no brackets here" 0 = Err (IndexError_range 0 0).
Proof.
  split; [lia|]. split; [reflexivity|].
  apply (proj2 (proj2 (extract_feeling_out_of_range "no brackets here" 0
                         ltac:(lia)))).
  reflexivity.
Defined.

Lemma clean_fold (raw_data : list string) :
  forall printed tuples,
  fold_left clean_step raw_data (printed, tuples)
  = ((printed ++ extraction_diagnostics raw_data)%list,
     (tuples ++ surviving_pairs raw_data)%list).
Proof.
  induction raw_data as [|d raw IH]; intros printed tuples; simpl.
  - now rewrite !app_nil_r.
  - unfold extraction_diagnostics, surviving_pairs in *; simpl.
    destruct (extract_feeling d 0) as [f|e]; simpl;
      rewrite IH; now rewrite <- !app_assoc.
Qed.

Lemma clean_data_spec (raw_data : list string) :
  clean_data raw_data
  = (extraction_diagnostics raw_data, none_if_empty (surviving_pairs raw_data)).
Proof.
  unfold clean_data. rewrite clean_fold. simpl. reflexivity.
Qed.

(** C6: [clean_data] prints one diagnostic for each block whose feeling
    cannot be extracted and keeps no pair for it; every other block is
    still processed, and the pairs returned are those of the surviving
    blocks, in their order ([None] standing for "no pairs").  In
    particular a failing block in the middle of the batch only removes
    itself. *)
Theorem clean_data_partial_failure (raw_data : list string) :
  clean_data raw_data
  = (extraction_diagnostics raw_data, none_if_empty (surviving_pairs raw_data))
  /\ (forall pre block post e,
      raw_data = (pre ++ block :: post)%list ->
      extract_feeling block 0 = Err e ->
      clean_data raw_data
      = ((extraction_diagnostics pre ++ Diag_extract e :: extraction_diagnostics post)%list,
         none_if_empty (surviving_pairs pre ++ surviving_pairs post)%list)).
Proof.
  split; [apply clean_data_spec|].
  intros pre block post e -> He.
  rewrite clean_data_spec.
  unfold extraction_diagnostics, surviving_pairs.
  rewrite !flat_map_app. simpl. rewrite He. reflexivity.
Qed.

Lemma clean_data_partial_failure_witness :
  clean_data ["Timestamp"; scenario_block]
  = ([Diag_extract (IndexError_range 0 0)],
     Some [("Supported", scenario_body)]).
Proof.
  rewrite (proj2 (clean_data_partial_failure ["Timestamp"; scenario_block])
             [] "Timestamp" [scenario_block] (IndexError_range 0 0)
             eq_refl ltac:(reflexivity)).
  vm_compute. reflexivity.
Defined.

(** C8: when no block survives, [clean_data] returns [None]; when one
    does, it returns a non-empty list; it never returns the empty list. *)
Theorem clean_data_no_pairs_is_none (raw_data : list string) :
  ((forall d, In d raw_data -> exists e, extract_feeling d 0 = Err e) ->
   snd (clean_data raw_data) = None)
  /\ ((exists d f, In d raw_data /\ extract_feeling d 0 = Ok f) ->
      exists p ps, snd (clean_data raw_data) = Some (p :: ps))
  /\ snd (clean_data raw_data) <> Some [].
Proof.
  rewrite clean_data_spec. simpl.
  assert (Hnil : (forall d, In d raw_data -> exists e, extract_feeling d 0 = Err e) ->
                 surviving_pairs raw_data = []).
  { induction raw_data as [|d raw IH]; intros H; [reflexivity|].
    unfold surviving_pairs in *; simpl.
    destruct (H d (or_introl eq_refl)) as [e He]. rewrite He.
    apply IH. intros d' Hd'. apply H. now right. }
  split; [|split].
  - intros H. now rewrite (Hnil H).
  - intros [d [f [Hin Hf]]].
    destruct (surviving_pairs raw_data) as [|p ps] eqn:E; [|now exists p, ps].
    exfalso. apply in_split in Hin. destruct Hin as [pre [post ->]].
    unfold surviving_pairs in E. rewrite flat_map_app in E. simpl in E.
    rewrite Hf in E. apply app_eq_nil in E. destruct E as [_ E]. discriminate.
  - destruct (surviving_pairs raw_data); discriminate.
Qed.

Lemma clean_data_no_pairs_is_none_witness :
  snd (clean_data ["Timestamp"; "no brackets here"]) = None
  /\ snd (clean_data [scenario_block]) = Some [("Supported", scenario_body)].
Proof.
  split.
  - apply (proj1 (clean_data_no_pairs_is_none ["Timestamp"; "no brackets here"])).
    intros d [<-|[<-|[]]]; eexists; reflexivity.
  - destruct (proj1 (proj2 (clean_data_no_pairs_is_none [scenario_block])))
      as [p [ps _]].
    + exists scenario_block, "Supported". split; [left; reflexivity | reflexivity].
    + vm_compute. reflexivity.
Defined.

(** C7 (as stated): the record [populate_dataset] appends does not have an
    undefined average weight. *)
Lemma populate_dataset_average_not_undefined :
  ~ (forall feeling feeling_data (reg : registry),
       exists r, populate_dataset feeling feeling_data reg = (reg ++ [r])%list
                 /\ weights r = [] /\ average_weight r = NaN).
Proof.
  intros H. destruct (H "Bored" "Never" []) as [r [Hr [_ Havg]]].
  vm_compute in Hr. injection Hr as <-. discriminate.
Qed.

(** C7 (amended): [populate_dataset] appends exactly one record, with the
    given feeling and data, empty [weights] and [average_weight = 0]; two
    calls append two records in call order, also for the same feeling. *)
Theorem populate_dataset_appends (feeling feeling_data : string) (reg : registry) :
  populate_dataset feeling feeling_data reg
  = (reg ++ [{| feeling := feeling; data := feeling_data;
                weights := []; average_weight := Num 0 |}])%list
  /\ forall data2,
     populate_dataset feeling data2 (populate_dataset feeling feeling_data reg)
     = (reg ++ [Data_init feeling feeling_data; Data_init feeling data2])%list
     /\ List.length (populate_dataset feeling data2
                      (populate_dataset feeling feeling_data reg))
        = (List.length reg + 2)%nat.
Proof.
  split; [reflexivity|]. intros data2.
  unfold populate_dataset. rewrite <- app_assoc. split; [reflexivity|].
  rewrite !length_app. simpl. lia.
Qed.

(** *** [update_weights] *)

Lemma object_add_reduce_some (qs : list Q) (a : Q) :
  exists t, object_add_reduce (Some a) (map Some qs) = Ok (Some t)
            /\ (t == a + fold_right Qplus 0 qs)%Q.
Proof.
  revert a. induction qs as [|q qs IH]; intros a; simpl.
  - exists a. split; [reflexivity | ring].
  - destruct (IH (a + q)%Q) as [t [Ht Heq]]. exists t. split; [exact Ht|].
    rewrite Heq. ring.
Qed.

Lemma object_add_reduce_err (acc : option Q) (ws : list (option Q)) e :
  object_add_reduce acc ws = Err e -> e = TypeError.
Proof.
  revert acc; induction ws as [|w ws IH]; intros acc H; simpl in H;
    [discriminate|].
  destruct acc, w; try (injection H; auto); eauto.
Qed.

Lemma object_add_reduce_none (acc : option Q) (ws : list (option Q)) t :
  object_add_reduce acc ws = Ok (Some t) -> acc <> None /\ ~ In None ws.
Proof.
  revert acc; induction ws as [|w ws IH]; intros acc H; simpl in H.
  - injection H as ->. split; [discriminate | auto].
  - destruct acc as [a|], w as [b|]; try discriminate.
    destruct (IH _ H) as [_ Hn]. split; [discriminate|].
    intros [Hw|Hw]; [discriminate | contradiction].
Qed.

Lemma np_mean_none (ws : list (option Q)) :
  In None ws -> np_mean ws = Err TypeError.
Proof.
  destruct ws as [|w0 rest]; [intros []|]. intros Hin. simpl.
  destruct (object_add_reduce w0 rest) as [[t|]|e] eqn:E.
  - apply object_add_reduce_none in E. destruct E as [H1 H2].
    destruct Hin as [Hw|Hin]; [subst w0; contradiction | contradiction].
  - reflexivity.
  - now rewrite (object_add_reduce_err _ _ _ E).
Qed.

Lemma np_mean_numbers (qs : list Q) :
  exists m, np_mean (map Some qs) = Ok m /\ num_same m (arithmetic_mean qs).
Proof.
  destruct qs as [|q qs]; [exists NaN; split; reflexivity|].
  simpl. destruct (object_add_reduce_some qs q) as [t [Ht Heq]].
  rewrite Ht. eexists. split; [reflexivity|]. simpl.
  rewrite length_map. rewrite Heq. reflexivity.
Qed.

(** C4 (as stated): a [None] weight does not give a [nan] average:
    [update_weights] raises [TypeError], leaving the new weights next to the
    previous average. *)
Lemma update_weights_none_raises :
  update_weights (Data_init "Bored" "Always Never The") [Some 1; Some 0; None]
  = ({| feeling := "Bored"; data := "Always Never The";
        weights := [Some 1; Some 0; None]; average_weight := Num 0 |},
     Some TypeError)
  /\ average_weight (fst (update_weights (Data_init "Bored" "Always Never The")
                                         [Some 1; Some 0; None])) <> NaN.
Proof. split; [reflexivity | discriminate]. Qed.

(** C4 (amended): when [update_weights] is called with a list of numbers it
    returns normally with [weights] replaced and [average_weight] the
    arithmetic mean of all entries ([nan] for the empty list); when an
    entry is [None] it raises [TypeError] instead, after [weights] has been
    replaced and before [average_weight] changes. *)
Theorem update_weights_average (self : Data) :
  (forall qs : list Q,
     exists self', update_weights self (map Some qs) = (self', None)
     /\ feeling self' = feeling self /\ data self' = data self
     /\ weights self' = map Some qs
     /\ num_same (average_weight self') (arithmetic_mean qs))
  /\ (forall new_weights, In None new_weights ->
      update_weights self new_weights
      = ({| feeling := feeling self; data := data self; weights := new_weights;
            average_weight := average_weight self |}, Some TypeError)).
Proof.
  split.
  - intros qs. destruct (np_mean_numbers qs) as [m [Hm Hs]].
    unfold update_weights, update_average_weight. simpl. rewrite Hm.
    eexists. split; [reflexivity|]. simpl. auto.
  - intros ws Hin. unfold update_weights, update_average_weight. simpl.
    rewrite (np_mean_none _ Hin). reflexivity.
Qed.

Lemma update_weights_average_witness :
  update_weights (Data_init "Bored" "Never The") [Some 0; None]
  = ({| feeling := "Bored"; data := "Never The"; weights := [Some 0; None];
        average_weight := Num 0 |}, Some TypeError).
Proof.
  apply (proj2 (update_weights_average (Data_init "Bored" "Never The"))).
  simpl. auto.
Defined.

(** *** The slicing step of [get_data_from_file] *)

Lemma positions_shift {A} (l : list A) : forall k lo hi,
  positions_from (k + 1) lo hi l = positions_from k (lo - 1) (hi - 1) l.
Proof.
  induction l as [|x l IH]; intros k lo hi; [reflexivity|]. simpl.
  assert (H1 : (lo <=? k + 1)%Z = (lo - 1 <=? k)%Z)
    by (destruct (Z.leb_spec lo (k + 1)), (Z.leb_spec (lo - 1) k); lia).
  assert (H2 : (k + 1 <? hi)%Z = (k <? hi - 1)%Z)
    by (destruct (Z.ltb_spec (k + 1) hi), (Z.ltb_spec k (hi - 1)); lia).
  rewrite H1, H2, IH. reflexivity.
Qed.

Lemma positions_out {A} (l : list A) : forall k lo hi,
  (hi <= k)%Z -> positions_from k lo hi l = [].
Proof.
  induction l as [|x l IH]; intros k lo hi H; [reflexivity|]. simpl.
  destruct (Z.ltb_spec k hi); [lia|].
  rewrite andb_false_r. apply IH. lia.
Qed.

Lemma firstn_skipn_positions {A} (l : list A) : forall lo hi,
  firstn (Z.to_nat (hi - Z.max lo 0)) (skipn (Z.to_nat lo) l)
  = positions_from 0 lo hi l.
Proof.
  induction l as [|x l IH]; intros lo hi.
  - now rewrite skipn_nil, firstn_nil.
  - pose proof (positions_shift l 0 lo hi) as Hs. simpl Z.add in Hs.
    simpl positions_from. rewrite Hs.
    destruct (Z.leb_spec lo 0) as [Hlo|Hlo].
    + replace (Z.to_nat lo) with 0%nat by lia.
      replace (Z.max lo 0) with 0%Z by lia. simpl skipn.
      destruct (Z.ltb_spec 0 hi) as [Hhi|Hhi].
      * replace (Z.to_nat (hi - 0)) with (S (Z.to_nat (hi - 1))) by lia.
        simpl. rewrite <- IH.
        replace (Z.to_nat (lo - 1)) with 0%nat by lia.
        replace (hi - 1 - Z.max (lo - 1) 0)%Z with (hi - 1)%Z by lia.
        reflexivity.
      * replace (Z.to_nat (hi - 0)) with 0%nat by lia. simpl.
        symmetry. apply positions_out. lia.
    + replace (Z.to_nat lo) with (S (Z.to_nat (lo - 1))) by lia.
      replace (Z.max lo 0) with lo by lia. simpl skipn.
      simpl. rewrite <- IH.
      replace (hi - 1 - Z.max (lo - 1) 0)%Z with (hi - lo)%Z by lia.
      reflexivity.
Qed.

Lemma py_slice_nonneg {A} (l : list A) (lo hi : Z) :
  (0 <= lo)%Z -> (0 <= hi)%Z ->
  py_slice l lo hi = firstn (Z.to_nat (hi - lo)) (skipn (Z.to_nat lo) l).
Proof.
  intros Hlo Hhi. unfold py_slice, slice_index.
  destruct (Z.ltb_spec lo 0); [lia|]. destruct (Z.ltb_spec hi 0); [lia|].
  destruct (Z.le_gt_cases (Z.of_nat (List.length l)) lo) as [Hn|Hn].
  - rewrite (@skipn_all2 _ (Z.to_nat lo)) by lia.
    rewrite (@skipn_all2 _ (Z.to_nat (Z.min lo _))) by lia.
    now rewrite !firstn_nil.
  - replace (Z.min lo (Z.of_nat (List.length l))) with lo by lia.
    destruct (Z.le_gt_cases (Z.of_nat (List.length l)) hi) as [Hh|Hh].
    + replace (Z.min hi (Z.of_nat (List.length l)))
        with (Z.of_nat (List.length l)) by lia.
      rewrite !firstn_all2; [reflexivity| |]; rewrite length_skipn; lia.
    + replace (Z.min hi (Z.of_nat (List.length l))) with hi by lia.
      reflexivity.
Qed.

Lemma slice_index_neg (n i : Z) :
  (0 <= n)%Z -> (i < 0)%Z -> slice_index n (Z.max 0 (i + n)) = slice_index n i.
Proof.
  intros Hn Hi. unfold slice_index.
  destruct (Z.ltb_spec i 0), (Z.ltb_spec (Z.max 0 (i + n)) 0); lia.
Qed.

Lemma py_slice_length {A} (l : list A) (lo hi : Z) :
  (List.length (py_slice l lo hi) <= List.length l)%nat.
Proof.
  unfold py_slice. rewrite length_firstn, length_skipn. lia.
Qed.

(** C9 (as stated): a negative index is not read as a position of the
    half-open range: [lowerIndex = -1] selects the last block only, where
    the range [[-1, 3)] covers all three. *)
Lemma segment_negative_lower_index :
  str_split "---" "a---b---c" = ["a"; "b"; "c"]
  /\ segment "a---b---c" "---" (-1) None = Ok ["c"]
  /\ segment "a---b---c" "---" (-1) None
     <> Ok (interval_slice ["a"; "b"; "c"] (-1) 3).
Proof.
  split; [reflexivity|]. split; [reflexivity|].
  vm_compute. intros H. discriminate.
Qed.

(** C9 (amended): for a non-empty delimiter the segmenter returns the
    slice of the split blocks and raises nothing.  With non-negative
    indices the slice is the blocks at positions [lower_index] to
    [upper_index - 1] (to the end when [upper_index] is [None]), clamped to
    the blocks present, so it is never longer than the block list; a
    negative index counts from the end of the block list, as Python slicing
    does. *)
Theorem slice_blocks_permissive (data : list string) (lower_index : Z)
    (upper_index : option Z) :
  (forall source_text delimiter, delimiter <> "" ->
     segment source_text delimiter lower_index upper_index
     = Ok (slice_blocks (str_split delimiter source_text) lower_index upper_index))
  /\ ((0 <= lower_index)%Z ->
      (forall u, upper_index = Some u -> (0 <= u)%Z) ->
      slice_blocks data lower_index upper_index
      = interval_slice data lower_index
          (match upper_index with
           | Some u => u
           | None => Z.of_nat (List.length data)
           end))
  /\ ((lower_index < 0)%Z ->
      slice_blocks data lower_index upper_index
      = slice_blocks data (Z.max 0 (lower_index + Z.of_nat (List.length data)))
                     upper_index)
  /\ (forall u, upper_index = Some u -> (u < 0)%Z ->
      slice_blocks data lower_index upper_index
      = slice_blocks data lower_index
                     (Some (Z.max 0 (u + Z.of_nat (List.length data)))))
  /\ (List.length (slice_blocks data lower_index upper_index)
      <= List.length data)%nat.
Proof.
  split; [|split; [|split; [|split]]].
  - intros src [|c d] Hd; [contradiction | reflexivity].
  - intros Hlo Hhi. unfold interval_slice.
    rewrite <- firstn_skipn_positions.
    replace (Z.max lower_index 0) with lower_index by lia.
    destruct upper_index as [u|]; simpl; apply py_slice_nonneg; auto; lia.
  - intros Hlo. destruct upper_index as [u|]; simpl; unfold py_slice;
      rewrite (slice_index_neg _ lower_index); auto; lia.
  - intros u -> Hu. simpl. unfold py_slice.
    rewrite (slice_index_neg _ u); auto; lia.
  - destruct upper_index; apply py_slice_length.
Qed.

Lemma slice_blocks_permissive_witness :
  slice_blocks ["a"; "b"; "c"] 1 (Some 10%Z) = ["b"; "c"]
  /\ slice_blocks ["a"; "b"; "c"] (-1) None = slice_blocks ["a"; "b"; "c"] 2 None.
Proof.
  split.
  - rewrite (proj1 (proj2 (slice_blocks_permissive ["a"; "b"; "c"] 1 (Some 10%Z))));
      [reflexivity | lia | intros u Hu; injection Hu as <-; lia].
  - apply (proj1 (proj2 (proj2 (slice_blocks_permissive ["a"; "b"; "c"] (-1) None)))).
    lia.
Defined.

(** *** [strip_data] on a block without a closing bracket *)

Lemma all_space_app (a b : string) :
  all_space (a ++ b) = all_space a && all_space b.
Proof.
  induction a as [|c a IH]; simpl; [reflexivity|].
  rewrite IH. apply andb_assoc.
Qed.

Lemma lstrip_decomp (s : string) :
  exists pre, all_space pre = true /\ s = pre ++ lstrip s.
Proof.
  induction s as [|c r [pre [Hp Hr]]]; [exists ""; split; reflexivity|].
  simpl. destruct (is_space c) eqn:Hc.
  - exists (String c pre). simpl. rewrite Hc, Hp. split; [reflexivity|].
    simpl. f_equal. exact Hr.
  - exists "". split; reflexivity.
Qed.

Lemma rstrip_decomp (s : string) :
  exists suf, all_space suf = true /\ s = rstrip s ++ suf.
Proof.
  induction s as [|c r [suf [Hs Hr]]]; [exists ""; split; reflexivity|].
  simpl. destruct (rstrip r) as [|d r'] eqn:E.
  - simpl in Hr. subst r. destruct (is_space c) eqn:Hc.
    + exists (String c suf). simpl. rewrite Hc, Hs. split; reflexivity.
    + exists suf. split; [exact Hs | reflexivity].
  - exists suf. split; [exact Hs|]. simpl. f_equal. exact Hr.
Qed.

Lemma lstrip_all_space (s : string) : all_space s = true -> lstrip s = "".
Proof.
  induction s as [|c r IH]; simpl; [reflexivity|].
  intros H. apply andb_true_iff in H. destruct H as [Hc Hr].
  rewrite Hc. apply IH, Hr.
Qed.

Lemma py_strip_empty (s : string) : py_strip s = "" <-> all_space s = true.
Proof.
  unfold py_strip. split.
  - intros H. destruct (lstrip_decomp s) as [pre [Hp Hs]].
    destruct (rstrip_decomp (lstrip s)) as [suf [Hu Hl]].
    rewrite H in Hl. simpl in Hl. rewrite Hs, Hl, all_space_app, Hp, Hu.
    reflexivity.
  - intros H. rewrite (lstrip_all_space _ H). reflexivity.
Qed.

Lemma all_space_replace_newline (s : string) :
  all_space (replace_char newline " " s) = all_space s.
Proof.
  induction s as [|c r IH]; simpl; [reflexivity|].
  rewrite IH. destruct (Ascii.eqb c newline) eqn:E; [|reflexivity].
  apply Ascii.eqb_eq in E. subst c. reflexivity.
Qed.

Lemma find_bracket_replace_newline (s : string) :
  count_char "]" s = O -> find_index "]" (replace_char newline " " s) = None.
Proof.
  induction s as [|c r IH]; simpl; [reflexivity|].
  destruct (Ascii.eqb c "]") eqn:Eb; [discriminate|]. simpl. intros H.
  rewrite (IH H).
  destruct (Ascii.eqb c newline) eqn:E; [reflexivity|]. rewrite Eb. reflexivity.
Qed.

(** C10: on a block without [']'], [strip_data] keeps the whole block with
    each newline replaced by a space and only the leading and trailing
    whitespace removed; it is empty exactly when the block is whitespace
    only. *)
Theorem strip_data_without_bracket (block : string)
    (Hnobracket : count_char "]" block = O) :
  strip_data block = py_strip (replace_char newline " " block)
  /\ (exists pre suf, all_space pre = true /\ all_space suf = true
      /\ replace_char newline " " block = pre ++ strip_data block ++ suf)
  /\ (strip_data block = "" <-> all_space block = true).
Proof.
  assert (Hs : strip_data block = py_strip (replace_char newline " " block)).
  { unfold strip_data, py_find.
    rewrite (find_bracket_replace_newline _ Hnobracket). reflexivity. }
  split; [exact Hs|]. split.
  - rewrite Hs. unfold py_strip.
    destruct (lstrip_decomp (replace_char newline " " block)) as [pre [Hp E1]].
    destruct (rstrip_decomp (lstrip (replace_char newline " " block)))
      as [suf [Hu E2]].
    exists pre, suf. split; [exact Hp|]. split; [exact Hu|].
    rewrite <- E2. exact E1.
  - rewrite Hs, py_strip_empty, all_space_replace_newline. reflexivity.
Qed.

Lemma strip_data_without_bracket_witness :
  strip_data (String newline ("Never" ++ String newline "Often ")) = "Never Often".
Proof.
  rewrite (proj1 (strip_data_without_bracket
                    (String newline ("Never" ++ String newline "Often "))
                    ltac:(reflexivity))).
  reflexivity.
Defined.

(** *** [order_weights] *)

Section StableSortFacts.
Variable A : Type.
Variable lt : A -> A -> bool.
(** [lt] is a strict weak order: asymmetric, and "not smaller" is
    transitive. *)
Hypothesis lt_asym : forall a b, lt a b = true -> lt b a = false.
Hypothesis lt_not_trans :
  forall a b c, lt b a = false -> lt c b = false -> lt c a = false.

Let le (a b : A) : Prop := lt b a = false.

Lemma insert_stable_perm (x : A) (l : list A) :
  Permutation (insert_stable lt x l) (x :: l).
Proof.
  induction l as [|y l IH]; simpl; [reflexivity|].
  destruct (lt y x); [|reflexivity].
  rewrite IH. apply perm_swap.
Qed.

Lemma stable_sort_perm (l : list A) : Permutation (stable_sort lt l) l.
Proof.
  induction l as [|x l IH]; simpl; [reflexivity|].
  rewrite insert_stable_perm. now apply perm_skip.
Qed.

Lemma insert_stable_hdrel (x y : A) (l : list A) :
  le y x -> HdRel le y l -> HdRel le y (insert_stable lt x l).
Proof.
  intros Hyx Hl. destruct l as [|z l]; simpl; [now constructor|].
  destruct (lt z x); constructor; [inversion Hl; assumption | exact Hyx].
Qed.

Lemma insert_stable_sorted (x : A) (l : list A) :
  Sorted le l -> Sorted le (insert_stable lt x l).
Proof.
  induction l as [|y l IH]; intros Hs; simpl; [repeat constructor|].
  destruct (lt y x) eqn:E.
  - apply Sorted_inv in Hs. destruct Hs as [Hs Hhd].
    constructor; [now apply IH|].
    apply insert_stable_hdrel; [now apply lt_asym | exact Hhd].
  - constructor; [exact Hs|]. constructor. exact E.
Qed.

Lemma stable_sort_sorted (l : list A) : Sorted le (stable_sort lt l).
Proof.
  induction l as [|x l IH]; simpl; [constructor|].
  now apply insert_stable_sorted.
Qed.

(** Filtering by a predicate that holds only on mutually equivalent
    elements commutes with the sort: equivalent elements keep their input
    order. *)
Variable P : A -> bool.
Hypothesis P_equiv : forall y z, P y = true -> P z = true -> lt y z = false.

Lemma insert_stable_filter (x : A) (l : list A) :
  filter P (insert_stable lt x l) = if P x then x :: filter P l else filter P l.
Proof.
  induction l as [|y l IH]; simpl; [reflexivity|].
  destruct (lt y x) eqn:E.
  - simpl. rewrite IH.
    destruct (P x) eqn:Px, (P y) eqn:Py; try reflexivity.
    rewrite (P_equiv y x Py Px) in E. discriminate.
  - reflexivity.
Qed.

Lemma stable_sort_filter (l : list A) :
  filter P (stable_sort lt l) = filter P l.
Proof.
  induction l as [|x l IH]; simpl; [reflexivity|].
  rewrite insert_stable_filter, IH. reflexivity.
Qed.

End StableSortFacts.

Lemma StronglySorted_snoc {A} (R : A -> A -> Prop) (l : list A) (x : A) :
  StronglySorted R l -> Forall (fun y => R y x) l ->
  StronglySorted R (l ++ [x]).
Proof.
  induction l as [|y l IH]; intros Hs Hf; simpl.
  - repeat constructor.
  - apply StronglySorted_inv in Hs. destruct Hs as [Hs Hy].
    inversion Hf; subst. constructor; [now apply IH|].
    apply Forall_app. split; [exact Hy|]. now constructor.
Qed.

Lemma StronglySorted_rev {A} (R : A -> A -> Prop) (l : list A) :
  StronglySorted R l -> StronglySorted (fun a b => R b a) (rev l).
Proof.
  induction l as [|x l IH]; intros Hs; simpl; [constructor|].
  apply StronglySorted_inv in Hs. destruct Hs as [Hs Hx].
  apply StronglySorted_snoc; [now apply IH|].
  apply Forall_rev. exact Hx.
Qed.

Lemma ForallOrdPairs_perm {A} (R : A -> A -> Prop)
    (Rsym : forall a b, R a b -> R b a) (l l' : list A) :
  Permutation l l' -> ForallOrdPairs R l -> ForallOrdPairs R l'.
Proof.
  intros Hp. induction Hp as [|x l l' Hp IH|x y l|l l' l'' Hp1 IH1 Hp2 IH2];
    intros Hf.
  - constructor.
  - inversion Hf; subst. constructor; [|now apply IH].
    eapply Permutation_Forall; eassumption.
  - inversion Hf as [|? ? Hy Hxl]; subst.
    inversion Hxl as [|? ? Hx Hl]; subst. inversion Hy; subst.
    constructor; [constructor; auto|]. constructor; assumption.
  - auto.
Qed.

Lemma ForallOrdPairs_map {A B} (f : A -> B) (R : B -> B -> Prop) (l : list A) :
  ForallOrdPairs (fun a b => R (f a) (f b)) l -> ForallOrdPairs R (map f l).
Proof.
  induction l as [|x l IH]; intros H; simpl; [constructor|].
  inversion H; subst. constructor; [|now apply IH].
  apply Forall_map. assumption.
Qed.

Lemma StronglySorted_strict {A} (R S : A -> A -> Prop) (T : A -> A -> Prop)
    (HT : forall a b, R a b -> S a b -> T a b) (l : list A) :
  StronglySorted R l -> ForallOrdPairs S l -> StronglySorted T l.
Proof.
  induction l as [|x l IH]; intros Hr Hs; [constructor|].
  apply StronglySorted_inv in Hr. destruct Hr as [Hr Hx].
  inversion Hs; subst. constructor; [now apply IH|].
  eapply Forall_impl with (P := fun y => R x y /\ S x y).
  - intros y [Hr1 Hs1]. now apply HT.
  - apply Forall_forall. intros y Hy. split; eapply Forall_forall; eauto.
Qed.

(** Sorting a mapped list compares the images. *)
Lemma sort_reverse_map {A B} (ltA : A -> A -> bool) (ltB : B -> B -> bool)
    (g : A -> B) (Hg : forall x y, ltB (g x) (g y) = ltA x y) (l : list A) :
  sort_reverse ltB (map g l) = map g (sort_reverse ltA l).
Proof.
  assert (Hi : forall x m, insert_stable ltB (g x) (map g m)
                           = map g (insert_stable ltA x m)).
  { intros x m. induction m as [|y m IH]; simpl; [reflexivity|].
    rewrite Hg. destruct (ltA y x); simpl; [now rewrite IH | reflexivity]. }
  assert (Hs : forall m, stable_sort ltB (map g m) = map g (stable_sort ltA m)).
  { induction m as [|x m IH]; simpl; [reflexivity|]. now rewrite IH, Hi. }
  unfold sort_reverse. now rewrite <- map_rev, Hs, map_rev.
Qed.

Lemma filter_map_comm {A B} (P : B -> bool) (g : A -> B) (l : list A) :
  filter P (map g l) = map g (filter (fun x => P (g x)) l).
Proof.
  induction l as [|x l IH]; simpl; [reflexivity|].
  destruct (P (g x)); simpl; now rewrite IH.
Qed.

Lemma filter_rev_comm {A} (P : A -> bool) (l : list A) :
  filter P (rev l) = rev (filter P l).
Proof.
  induction l as [|x l IH]; simpl; [reflexivity|].
  rewrite filter_app, IH. simpl. destruct (P x); simpl; [reflexivity|].
  apply app_nil_r.
Qed.

Lemma StronglySorted_map {A B} (g : A -> B) (R : B -> B -> Prop) (l : list A) :
  StronglySorted (fun a b => R (g a) (g b)) l -> StronglySorted R (map g l).
Proof.
  induction l as [|x l IH]; intros H; simpl; [constructor|].
  apply StronglySorted_inv in H. destruct H as [H Hx].
  constructor; [now apply IH|]. apply Forall_map. exact Hx.
Qed.

Lemma ForallOrdPairs_map_inv {A B} (g : A -> B) (R : B -> B -> Prop) (l : list A) :
  ForallOrdPairs R (map g l) -> ForallOrdPairs (fun a b => R (g a) (g b)) l.
Proof.
  induction l as [|x l IH]; intros H; simpl; [constructor|].
  inversion H; subst. constructor; [|now apply IH].
  apply Forall_map. assumption.
Qed.

Definition lift_entry (p : string * Q) : string * num := (fst p, Num (snd p)).

Definition entry_lt (p1 p2 : string * Q) : bool := Qltb (snd p1) (snd p2).

Lemma Qltb_false (a b : Q) : Qltb a b = false <-> (b <= a)%Q.
Proof.
  unfold Qltb. rewrite <- Qle_bool_iff. destruct (Qle_bool b a); simpl; split;
    congruence.
Qed.

Lemma Qltb_true (a b : Q) : Qltb a b = true <-> (a < b)%Q.
Proof.
  unfold Qltb. split.
  - intros H. apply Qnot_le_lt. rewrite <- Qle_bool_iff.
    destruct (Qle_bool b a); [discriminate | congruence].
  - intros H. destruct (Qle_bool b a) eqn:E; [|reflexivity].
    apply Qle_bool_iff in E. exfalso. apply (Qlt_not_le a b H E).
Qed.

Lemma entry_lt_asym (a b : string * Q) :
  entry_lt a b = true -> entry_lt b a = false.
Proof.
  unfold entry_lt. rewrite Qltb_true, Qltb_false. apply Qlt_le_weak.
Qed.

Lemma entry_lt_not_trans (a b c : string * Q) :
  entry_lt b a = false -> entry_lt c b = false -> entry_lt c a = false.
Proof.
  unfold entry_lt. rewrite !Qltb_false. intros H1 H2. eapply Qle_trans; eauto.
Qed.

Lemma sort_reverse_perm {A} (lt : A -> A -> bool) (l : list A) :
  Permutation (sort_reverse lt l) l.
Proof.
  unfold sort_reverse. rewrite <- Permutation_rev, stable_sort_perm.
  symmetry. apply Permutation_rev.
Qed.

Lemma sort_reverse_nonincreasing (l : list (string * Q)) :
  StronglySorted (fun a b => entry_lt a b = false) (sort_reverse entry_lt l).
Proof.
  unfold sort_reverse.
  apply (StronglySorted_rev (fun a b => entry_lt b a = false)).
  apply Sorted_StronglySorted.
  - intros x y z H1 H2. eapply entry_lt_not_trans; eauto.
  - apply stable_sort_sorted. apply entry_lt_asym.
Qed.

Lemma sort_reverse_filter (q : Q) (l : list (string * Q)) :
  filter (fun p => Qeq_bool (snd p) q) (sort_reverse entry_lt l)
  = filter (fun p => Qeq_bool (snd p) q) l.
Proof.
  unfold sort_reverse. rewrite filter_rev_comm, stable_sort_filter,
    filter_rev_comm, rev_involutive; [reflexivity|].
  intros y z Hy Hz. apply Qeq_bool_iff in Hy, Hz. unfold entry_lt.
  apply Qltb_false. rewrite Hy, Hz. apply Qle_refl.
Qed.

Lemma defined_entries (data_objects : registry) :
  Forall (fun o => exists q, average_weight o = Num q) data_objects ->
  exists lq, map (fun o => (feeling o, average_weight o)) data_objects
             = map lift_entry lq.
Proof.
  induction data_objects as [|o ds IH]; intros H; [now exists []|].
  inversion H as [|? ? [q Hq] Hds]; subst.
  destruct (IH Hds) as [lq Hlq]. exists ((feeling o, q) :: lq).
  simpl. now rewrite Hq, Hlq.
Qed.

(** C3: when every record has a defined average weight, [order_weights]
    prints the [(feeling, average_weight)] pairs of the records, each once,
    from the largest average to the smallest; when the averages are
    pairwise distinct the order is strictly descending, and records with
    equal averages are printed in their registry order. *)
Theorem order_weights_ranking (data_objects : registry)
    (Hdefined : Forall (fun o => exists q, average_weight o = Num q) data_objects) :
  Permutation (order_weights data_objects)
              (map (fun o => (feeling o, average_weight o)) data_objects)
  /\ StronglySorted (fun p1 p2 => num_lt (snd p1) (snd p2) = false)
                    (order_weights data_objects)
  /\ (ForallOrdPairs (fun o1 o2 => num_eqb (average_weight o1) (average_weight o2) = false)
                     data_objects ->
      StronglySorted (fun p1 p2 => num_lt (snd p2) (snd p1) = true)
                     (order_weights data_objects))
  /\ (forall q,
      filter (fun p => num_eqb (snd p) (Num q)) (order_weights data_objects)
      = filter (fun p => num_eqb (snd p) (Num q))
               (map (fun o => (feeling o, average_weight o)) data_objects)).
Proof.
  destruct (defined_entries _ Hdefined) as [lq Hlq].
  assert (Hout : order_weights data_objects = map lift_entry (sort_reverse entry_lt lq)).
  { unfold order_weights. rewrite Hlq. apply sort_reverse_map. reflexivity. }
  rewrite Hout, Hlq.
  split; [|split; [|split]].
  - apply Permutation_map, sort_reverse_perm.
  - apply StronglySorted_map, sort_reverse_nonincreasing.
  - intros Hdist.
    apply (ForallOrdPairs_map (fun o => (feeling o, average_weight o))
             (fun p1 p2 => num_eqb (snd p1) (snd p2) = false)) in Hdist.
    rewrite Hlq in Hdist. apply ForallOrdPairs_map_inv in Hdist.
    apply StronglySorted_map.
    apply (StronglySorted_strict (fun a b => entry_lt a b = false)
             (fun a b => Qeq_bool (snd a) (snd b) = false)).
    + intros a b H1 H2. simpl. unfold entry_lt in H1.
      apply Qltb_false in H1. apply Qltb_true.
      apply Qle_lt_or_eq in H1. destruct H1 as [H1|H1]; [exact H1|].
      apply Qeq_bool_iff in H1. rewrite Qeq_bool_comm in H1. congruence.
    + apply sort_reverse_nonincreasing.
    + eapply ForallOrdPairs_perm; [| symmetry; apply sort_reverse_perm | exact Hdist].
      intros a b H. now rewrite Qeq_bool_comm.
  - intros q. rewrite !filter_map_comm. f_equal. apply sort_reverse_filter.
Qed.

Lemma order_weights_ranking_witness :
  order_weights ranking_example
  = [("Supported", Num (5 # 9)); ("Bored", Num 0); ("Tired", Num 0)]
  /\ filter (fun p => num_eqb (snd p) (Num 0)) (order_weights ranking_example)
     = [("Bored", Num 0); ("Tired", Num 0)].
Proof.
  split; [vm_compute; reflexivity|].
  rewrite (proj2 (proj2 (proj2 (order_weights_ranking ranking_example
             ltac:(repeat constructor; eexists; reflexivity)))) 0).
  vm_compute. reflexivity.
Defined.

(* ------------------------------------------------------------------ *)
(** ** Further properties of the code *)

(** *** [re.findall] and [extract_feeling] *)

Lemma take_word_spec (s : string) :
  fst (take_word s) ++ snd (take_word s) = s /\ all_word (fst (take_word s)) = true.
Proof.
  induction s as [|c r [IH1 IH2]]; [split; reflexivity|]. simpl.
  destruct (is_word c) eqn:Hc.
  - destruct (take_word r) as [w rest]. simpl in *. rewrite IH1, Hc, IH2.
    split; reflexivity.
  - split; reflexivity.
Qed.

Lemma match_at_spec (s w rest : string) :
  match_at s = Some (w, rest) ->
  s = "[" ++ w ++ "]" ++ rest /\ w <> "" /\ all_word w = true.
Proof.
  destruct s as [|c r]; [discriminate|]. unfold match_at.
  destruct (Ascii.eqb_spec c "[") as [->|Hc].
  2:{ destruct c as [[] [] [] [] [] [] [] []]; try discriminate; congruence. }
  destruct (take_word_spec r) as [Hr Hw].
  destruct (take_word r) as [w' rest'] eqn:E. simpl in Hr, Hw.
  destruct w' as [|a w'']; [discriminate|].
  destruct rest' as [|b rest'']; [discriminate|].
  destruct (Ascii.eqb_spec b "]") as [->|Hb].
  2:{ destruct b as [[] [] [] [] [] [] [] []]; try discriminate; congruence. }
  intros H. injection H as <- <-. subst r.
  split; [reflexivity|]. split; [discriminate | exact Hw].
Qed.

Lemma findall_fuel_spec (fuel : nat) : forall s w,
  In w (findall_fuel fuel s) ->
  (exists pre post, s = pre ++ "[" ++ w ++ "]" ++ post) /\ w <> "" /\ all_word w = true.
Proof.
  induction fuel as [|f IH]; intros s w Hin; [destruct Hin|].
  destruct s as [|c r]; [destruct Hin|]. cbn [findall_fuel] in Hin.
  destruct (match_at (String c r)) as [[w' rest]|] eqn:E.
  - apply match_at_spec in E. destruct E as [Hs [Hne Hw]].
    destruct Hin as [<-|Hin].
    + split; [exists "", rest; exact Hs|]. auto.
    + destruct (IH rest w Hin) as [[pre [post Hr]] Hrest].
      split; [|exact Hrest].
      exists ("[" ++ w' ++ "]" ++ pre), post. rewrite Hs, Hr.
      rewrite !str_append_assoc. reflexivity.
  - destruct (IH r w Hin) as [[pre [post Hr]] Hrest]. split; [|exact Hrest].
    exists (String c pre), post. rewrite Hr. reflexivity.
Qed.

(** *** [strip_data] *)

Lemma lstrip_idem (s : string) : lstrip (lstrip s) = lstrip s.
Proof.
  induction s as [|c r IH]; simpl; [reflexivity|].
  destruct (is_space c) eqn:Hc; [exact IH|]. simpl. now rewrite Hc.
Qed.

Lemma rstrip_cons_nonempty (c d : ascii) (r r' : string) :
  rstrip r = String d r' -> rstrip (String c r) = String c (String d r').
Proof. intros E. simpl. rewrite E. reflexivity. Qed.

Lemma rstrip_idem (s : string) : rstrip (rstrip s) = rstrip s.
Proof.
  induction s as [|c r IH]; [reflexivity|].
  destruct (rstrip r) as [|d r'] eqn:E.
  - simpl. rewrite E.
    destruct (is_space c) eqn:Hc; simpl; [reflexivity|]. now rewrite Hc.
  - rewrite (rstrip_cons_nonempty c d r r' E).
    apply rstrip_cons_nonempty. exact IH.
Qed.

Lemma lstrip_rstrip (s : string) : lstrip s = s -> lstrip (rstrip s) = rstrip s.
Proof.
  destruct s as [|c r]; simpl; [reflexivity|].
  destruct (is_space c) eqn:Hc.
  - intros H. exfalso. assert (Hl := f_equal String.length H).
    assert (Hle : forall t, (String.length (lstrip t) <= String.length t)%nat).
    { induction t as [|x t IHt]; simpl; [lia|].
      destruct (is_space x); simpl; lia. }
    specialize (Hle r). simpl in Hl. lia.
  - intros _. destruct (rstrip r); simpl; rewrite Hc; reflexivity.
Qed.

Lemma py_strip_idem (s : string) : py_strip (py_strip s) = py_strip s.
Proof.
  unfold py_strip. rewrite lstrip_rstrip by apply lstrip_idem.
  apply rstrip_idem.
Qed.

Lemma count_char_str_drop (c : ascii) (n : nat) (s : string) :
  (count_char c (str_drop n s) <= count_char c s)%nat.
Proof.
  revert s; induction n as [|n IH]; intros s; simpl; [lia|].
  destruct s as [|d r]; simpl; [lia|]. specialize (IH r). lia.
Qed.

Lemma count_char_lstrip (c : ascii) (s : string) :
  (count_char c (lstrip s) <= count_char c s)%nat.
Proof.
  induction s as [|d r IH]; simpl; [lia|].
  destruct (is_space d); simpl; lia.
Qed.

Lemma count_char_rstrip (c : ascii) (s : string) :
  (count_char c (rstrip s) <= count_char c s)%nat.
Proof.
  induction s as [|d r IH]; simpl; [lia|].
  destruct (rstrip r) as [|e r'] eqn:E.
  - destruct (is_space d); simpl; lia.
  - simpl. simpl in IH. lia.
Qed.

Lemma count_newline_replace (s : string) :
  count_char newline (replace_char newline " " s) = O.
Proof.
  induction s as [|c r IH]; simpl; [reflexivity|]. rewrite IH.
  destruct (Ascii.eqb c newline) eqn:E; [reflexivity|]. now rewrite E.
Qed.

Lemma replace_char_app (o n : ascii) (a b : string) :
  replace_char o n (a ++ b) = replace_char o n a ++ replace_char o n b.
Proof. induction a as [|c a IH]; simpl; [reflexivity|]. now rewrite IH. Qed.

Lemma length_replace_char (o n : ascii) (s : string) :
  String.length (replace_char o n s) = String.length s.
Proof. induction s as [|c r IH]; simpl; [reflexivity|]. now rewrite IH. Qed.

Lemma str_drop_app (a b : string) : str_drop (String.length a) (a ++ b) = b.
Proof. induction a as [|c a IH]; simpl; [reflexivity|]. exact IH. Qed.

Lemma find_index_first_bracket (pre post : string) :
  count_char "]" pre = O ->
  find_index "]" (replace_char newline " " pre ++ String "]" post)
  = Some (String.length pre).
Proof.
  induction pre as [|c r IH]; simpl; [reflexivity|].
  destruct (Ascii.eqb c "]") eqn:Eb; [discriminate|]. simpl. intros H.
  rewrite (IH H).
  destruct (Ascii.eqb c newline) eqn:E; [reflexivity|]. now rewrite Eb.
Qed.

Lemma str_drop_past_char (a b : string) (x : ascii) :
  str_drop (S (String.length a)) (a ++ String x b) = b.
Proof. induction a as [|c a IH]; simpl; [reflexivity|]. exact IH. Qed.

Lemma extract_feeling_ok_spec (data : string) (subgroup : Z) (f : string) :
  extract_feeling data subgroup = Ok f ->
  f <> "" /\ all_word f = true
  /\ exists pre post, data = pre ++ "[" ++ f ++ "]" ++ post.
Proof.
  intros Hok. unfold extract_feeling in Hok.
  destruct (Z.ltb_spec subgroup 0); [discriminate|].
  destruct (Z.leb_spec (Z.of_nat (List.length (findall_bracketed data))) subgroup);
    [discriminate|].
  injection Hok as <-.
  assert (Hin : In (nth (Z.to_nat subgroup) (findall_bracketed data) "")
                   (findall_bracketed data)) by (apply nth_In; lia).
  destruct (findall_fuel_spec _ _ _ Hin) as [Hocc [Hne Hw]]. auto.
Qed.

(** X1: a feeling returned by [extract_feeling] is a non-empty run of word
    characters that occurs in the block between [[] and []]. *)
Theorem extract_feeling_label (data : string) (subgroup : Z) (f : string)
    (Hok : extract_feeling data subgroup = Ok f) :
  f <> "" /\ all_word f = true
  /\ exists pre post, data = pre ++ "[" ++ f ++ "]" ++ post.
Proof. exact (extract_feeling_ok_spec data subgroup f Hok). Qed.

Lemma extract_feeling_label_witness :
  "90" <> "" /\ all_word "90" = true.
Proof.
  destruct (extract_feeling_label "[6] [90]" 1 "90" ltac:(reflexivity))
    as [Hne [Hw _]].
  split; assumption.
Defined.

Lemma strip_data_no_newline (raw_data : string) :
  count_char newline (strip_data raw_data) = O.
Proof.
  unfold strip_data, py_strip.
  pose proof (count_char_rstrip newline
               (lstrip (str_drop (Z.to_nat (py_find (replace_char newline " " raw_data) "]" + 1))
                                 (replace_char newline " " raw_data)))).
  pose proof (count_char_lstrip newline
               (str_drop (Z.to_nat (py_find (replace_char newline " " raw_data) "]" + 1))
                         (replace_char newline " " raw_data))).
  pose proof (count_char_str_drop newline
               (Z.to_nat (py_find (replace_char newline " " raw_data) "]" + 1))
               (replace_char newline " " raw_data)).
  rewrite count_newline_replace in *. lia.
Qed.

(** X2: the body [strip_data] returns contains no newline and has no
    leading or trailing whitespace: stripping it again changes nothing. *)
Theorem strip_data_output (raw_data : string) :
  count_char newline (strip_data raw_data) = O
  /\ py_strip (strip_data raw_data) = strip_data raw_data.
Proof. split; [apply strip_data_no_newline | apply py_strip_idem]. Qed.

Lemma strip_data_after_bracket (pre post : string) :
  count_char "]" pre = O ->
  strip_data (pre ++ String "]" post) = py_strip (replace_char newline " " post).
Proof.
  intros Hfirst.
  unfold strip_data, py_find. rewrite replace_char_app.
  change (replace_char newline " " (String "]" post))
    with (String "]" (replace_char newline " " post)).
  rewrite (find_index_first_bracket _ _ Hfirst).
  replace (Z.to_nat (Z.of_nat (String.length pre) + 1))
    with (S (String.length (replace_char newline " " pre)))
    by (rewrite length_replace_char; lia).
  rewrite str_drop_past_char. reflexivity.
Qed.

(** X3: [strip_data] drops everything up to the first closing bracket and
    keeps the rest, later brackets included, with newlines turned into
    spaces and the outer whitespace removed. *)
Theorem strip_data_first_bracket (pre post : string)
    (Hfirst : count_char "]" pre = O) :
  strip_data (pre ++ String "]" post) = py_strip (replace_char newline " " post).
Proof. exact (strip_data_after_bracket pre post Hfirst). Qed.

Lemma strip_data_first_bracket_witness :
  strip_data ("How do you feel? [Bored" ++ String "]" (" [Loquacious] "
              ++ String newline "Never"))
  = "[Loquacious]  Never".
Proof.
  rewrite (strip_data_first_bracket "How do you feel? [Bored"
             (" [Loquacious] " ++ String newline "Never") ltac:(reflexivity)).
  reflexivity.
Defined.

Lemma split_fuel_space (s : string) : forall fuel acc,
  (String.length s < fuel)%nat -> split_fuel fuel " " s acc = split_space s acc.
Proof.
  induction s as [|c r IH]; intros fuel acc Hf;
    (destruct fuel as [|f]; [simpl in Hf; lia|]); [reflexivity|].
  simpl in Hf. cbn [split_fuel split_space]. rewrite prefix_space.
  destruct (Ascii.eqb c " ") eqn:Ec.
  - apply Ascii.eqb_eq in Ec. subst c. simpl str_drop. f_equal. apply IH. lia.
  - apply IH. lia.
Qed.

Lemma str_split_space (s : string) : str_split " " s = split_space s "".
Proof. apply split_fuel_space. lia. Qed.

Lemma split_space_app (a b : string) : forall acc,
  split_space (a ++ String " " b) acc = (split_space a acc ++ split_space b "")%list.
Proof.
  induction a as [|c r IH]; intros acc; [reflexivity|].
  simpl. destruct (Ascii.eqb c " "); [now rewrite IH | apply IH].
Qed.

Lemma dict_get_lexicon (t : string) :
  dict_get weight_for_time_interval t = None <-> ~ In t lexicon.
Proof.
  unfold lexicon; simpl.
  destruct (String.eqb_spec t "Never"); [subst t; split; [discriminate | intros H; exfalso; apply H; simpl; tauto]|].
  destruct (String.eqb_spec t "Sometimes"); [subst t; split; [discriminate | intros H; exfalso; apply H; simpl; tauto]|].
  destruct (String.eqb_spec t "Often"); [subst t; split; [discriminate | intros H; exfalso; apply H; simpl; tauto]|].
  destruct (String.eqb_spec t "Always"); [subst t; split; [discriminate | intros H; exfalso; apply H; simpl; tauto]|].
  split; [intros _ H; intuition congruence | reflexivity].
Qed.

Lemma dict_get_value (t : string) (q : Q) :
  dict_get weight_for_time_interval t = Some q -> In q [0; 1#3; 2#3; 1]%Q.
Proof.
  simpl. destruct (String.eqb t "Never"); [intros [= <-]; simpl; tauto|].
  destruct (String.eqb t "Sometimes"); [intros [= <-]; simpl; tauto|].
  destruct (String.eqb t "Often"); [intros [= <-]; simpl; tauto|].
  destruct (String.eqb t "Always"); [intros [= <-]; simpl; tauto|].
  discriminate.
Qed.

Lemma fold_right_bounds (qs : list Q) :
  Forall (fun q => 0 <= q <= 1)%Q qs ->
  (0 <= fold_right Qplus 0 qs <= inject_Z (Z.of_nat (List.length qs)))%Q.
Proof.
  induction 1 as [|q qs [H0 H1] _ [IH0 IH1]]; [split; apply Qle_refl|].
  cbn [fold_right]. change (List.length (q :: qs)) with (S (List.length qs)).
  rewrite Nat2Z.inj_succ, <- Z.add_1_l, inject_Z_plus. split.
  - exact (Qplus_le_compat 0 q 0 _ H0 IH0).
  - apply Qplus_le_compat; assumption.
Qed.

Lemma arithmetic_mean_bounds (qs : list Q) :
  qs <> [] -> Forall (fun q => 0 <= q <= 1)%Q qs ->
  exists m, arithmetic_mean qs = Num m /\ (0 <= m <= 1)%Q.
Proof.
  intros Hne Hb. destruct qs as [|q0 qs0]; [congruence|].
  eexists; split; [reflexivity|].
  destruct (fold_right_bounds _ Hb) as [L U].
  assert (Hpos : (0 < inject_Z (Z.of_nat (List.length (q0 :: qs0))))%Q).
  { unfold Qlt; simpl. lia. }
  split.
  - apply Qle_shift_div_l; [exact Hpos|]. rewrite Qmult_0_l. exact L.
  - apply Qle_shift_div_r; [exact Hpos|]. rewrite Qmult_1_l. exact U.
Qed.

Lemma no_none_map_some (ws : list (option Q)) :
  ~ In None ws -> exists qs, ws = map Some qs.
Proof.
  induction ws as [|[q|] ws IH]; intros H; [exists []; reflexivity| |].
  - destruct IH as [qs ->]; [intros Hin; apply H; right; exact Hin|].
    exists (q :: qs). reflexivity.
  - exfalso. apply H. left. reflexivity.
Qed.

Lemma find_weights_none (body : string) :
  In None (find_weights body) <-> exists t, In t (str_split " " body) /\ ~ In t lexicon.
Proof.
  unfold find_weights. rewrite in_map_iff. split.
  - intros [t [Ht Hin]]. exists t. split; [exact Hin|]. apply dict_get_lexicon. exact Ht.
  - intros [t [Hin Ht]]. exists t. split; [apply dict_get_lexicon; exact Ht | exact Hin].
Qed.

Lemma find_weights_some (body : string) (q : Q) :
  In (Some q) (find_weights body) -> In q [0; 1#3; 2#3; 1]%Q.
Proof.
  unfold find_weights. rewrite in_map_iff. intros [t [Ht _]].
  exact (dict_get_value t q Ht).
Qed.

Lemma find_weights_nonempty (body : string) : find_weights body <> [].
Proof.
  unfold find_weights, str_split. intros H. apply map_eq_nil in H.
  exact (split_fuel_nonempty _ _ _ _ H).
Qed.

Lemma weight_values_bounds (q : Q) :
  In q [0; 1#3; 2#3; 1]%Q -> (0 <= q <= 1)%Q.
Proof.
  simpl. intros [<-|[<-|[<-|[<-|[]]]]]; split; unfold Qle; simpl; lia.
Qed.

Lemma find_weights_known (body : string) :
  (forall t, In t (str_split " " body) -> In t lexicon) ->
  exists qs, find_weights body = map Some qs /\ qs <> []
             /\ Forall (fun q => 0 <= q <= 1)%Q qs.
Proof.
  intros Hk. destruct (no_none_map_some (find_weights body)) as [qs Hqs].
  { rewrite find_weights_none. intros [t [Hin Hn]]. exact (Hn (Hk t Hin)). }
  exists qs. split; [exact Hqs|]. split.
  - intros ->. exact (find_weights_nonempty body Hqs).
  - apply Forall_forall. intros q Hq. apply weight_values_bounds.
    apply (find_weights_some body). rewrite Hqs. apply in_map. exact Hq.
Qed.

Lemma mean_of_known_words (body : string) :
  (forall t, In t (str_split " " body) -> In t lexicon) ->
  exists m, np_mean (find_weights body) = Ok (Num m) /\ (0 <= m <= 1)%Q.
Proof.
  intros Hk. destruct (find_weights_known body Hk) as [qs [Hqs [Hne Hb]]].
  rewrite Hqs. destruct (np_mean_numbers qs) as [m' [Hm Hsame]].
  destruct (arithmetic_mean_bounds qs Hne Hb) as [m [Ham [L U]]].
  rewrite Ham in Hsame. destruct m' as [m''|]; [|destruct Hsame].
  simpl in Hsame. exists m''. split; [exact Hm|].
  rewrite Hsame. split; assumption.
Qed.

(** X4: [find_weights] maps each space-separated word on its own, so
    the weights of two texts joined by a space are the two lists joined. *)
Theorem find_weights_concat (a b : string) :
  find_weights (a ++ String " " b) = (find_weights a ++ find_weights b)%list.
Proof.
  unfold find_weights. rewrite !str_split_space, split_space_app. apply map_app.
Qed.

(** X5: [find_weights] never returns an empty list; its numbers are
    0, 1/3, 2/3 or 1; it holds [None] exactly when a word of the text
    split on spaces is not a key of the dictionary. *)
Theorem find_weights_values (body : string) :
  find_weights body <> []
  /\ (forall q, In (Some q) (find_weights body) -> In q [0; 1#3; 2#3; 1]%Q)
  /\ (In None (find_weights body)
      <-> exists t, In t (str_split " " body) /\ ~ In t lexicon).
Proof.
  split; [apply find_weights_nonempty|]. split; [apply find_weights_some|].
  apply find_weights_none.
Qed.

Lemma find_weights_values_witness :
  In None (find_weights "Always Syzygy Never").
Proof.
  destruct (find_weights_values "Always Syzygy Never") as [_ [_ [_ H]]].
  apply H. exists "Syzygy". split; [simpl; tauto | vm_compute; intuition discriminate].
Defined.

(** X6: giving [update_weights] the weights of a text with a word outside
    the dictionary raises [TypeError] in [np.mean], after [self.weights]
    was replaced and with the old average left in place. *)
Theorem update_weights_unknown_word (self : Data) (body : string)
    (Hunknown : exists t, In t (str_split " " body) /\ ~ In t lexicon) :
  update_weights self (find_weights body)
  = ({| feeling := feeling self; data := data self; weights := find_weights body;
        average_weight := average_weight self |}, Some TypeError).
Proof.
  apply find_weights_none in Hunknown.
  unfold update_weights, update_average_weight. simpl.
  rewrite (np_mean_none _ Hunknown). reflexivity.
Qed.

(** X7: when every word of the text is a key of the dictionary,
    [update_weights] with its weights succeeds and the new average lies
    between 0 and 1. *)
Theorem update_weights_known_words (self : Data) (body : string)
    (Hknown : forall t, In t (str_split " " body) -> In t lexicon) :
  exists m, update_weights self (find_weights body)
            = ({| feeling := feeling self; data := data self;
                  weights := find_weights body; average_weight := Num m |}, None)
            /\ (0 <= m <= 1)%Q.
Proof.
  destruct (mean_of_known_words body Hknown) as [m [Hm Hb]].
  exists m. unfold update_weights, update_average_weight. simpl.
  rewrite Hm. split; [reflexivity | exact Hb].
Qed.

Lemma update_weights_unknown_word_witness :
  snd (update_weights (Data_init "Bored" "Always Syzygy") (find_weights "Always Syzygy"))
  = Some TypeError.
Proof.
  rewrite (update_weights_unknown_word (Data_init "Bored" "Always Syzygy") "Always Syzygy").
  - reflexivity.
  - exists "Syzygy". split; [simpl; tauto | vm_compute; intuition discriminate].
Defined.

Lemma update_weights_known_words_witness :
  exists m, snd (update_weights (Data_init "Bored" "Never Always Often")
                                (find_weights "Never Always Often")) = None
            /\ (0 <= m <= 1)%Q.
Proof.
  destruct (update_weights_known_words (Data_init "Bored" "Never Always Often")
              "Never Always Often") as [m [E B]].
  - vm_compute. intros t Ht. intuition (subst; tauto).
  - exists m. rewrite E. split; [reflexivity | exact B].
Defined.

Lemma surviving_pairs_origin (raw_data : list string) (f b : string) :
  In (f, b) (surviving_pairs raw_data) ->
  exists d, In d raw_data /\ extract_feeling d 0 = Ok f /\ b = strip_data d.
Proof.
  unfold surviving_pairs. rewrite in_flat_map. intros [d [Hd Hin]].
  destruct (extract_feeling d 0) as [f'|e] eqn:E; [|destruct Hin].
  destruct Hin as [[= <- <-]|[]]. exists d. auto.
Qed.

Lemma clean_data_counts (raw_data : list string) :
  (List.length (extraction_diagnostics raw_data)
   + List.length (surviving_pairs raw_data))%nat = List.length raw_data.
Proof.
  induction raw_data as [|d raw IH]; [reflexivity|].
  unfold extraction_diagnostics, surviving_pairs in *. simpl.
  destruct (extract_feeling d 0); simpl; lia.
Qed.

(** X8: when [clean_data] returns a list, it is non-empty and each pair
    [(feeling, body)] comes from an input block whose first bracketed label
    is [feeling] (a non-empty run of word characters) and whose
    [strip_data] is [body], which has no newline. *)
Theorem clean_data_pairs_origin (raw_data : list string)
    (pairs : list (string * string))
    (Hret : snd (clean_data raw_data) = Some pairs) :
  pairs <> []
  /\ forall f b, In (f, b) pairs ->
     exists d, In d raw_data /\ extract_feeling d 0 = Ok f /\ b = strip_data d
               /\ f <> "" /\ all_word f = true /\ count_char newline b = O.
Proof.
  rewrite clean_data_spec in Hret. simpl in Hret.
  destruct (surviving_pairs raw_data) as [|p ps] eqn:E; [discriminate|].
  injection Hret as <-. split; [discriminate|].
  intros f b Hin. rewrite <- E in Hin.
  destruct (surviving_pairs_origin _ _ _ Hin) as [d [Hd [Hf ->]]].
  destruct (extract_feeling_ok_spec _ _ _ Hf) as [Hne [Hw _]].
  exists d. repeat split; auto. apply strip_data_no_newline.
Qed.

Lemma clean_data_pairs_origin_witness :
  exists d, In d ["[Bored] Never"; "no feeling"]
            /\ extract_feeling d 0 = Ok "Bored" /\ "Never" = strip_data d.
Proof.
  destruct (clean_data_pairs_origin ["[Bored] Never"; "no feeling"] [("Bored", "Never")]
              ltac:(reflexivity)) as [_ H].
  destruct (H "Bored" "Never" ltac:(simpl; tauto)) as [d [Hd [Hf [Hb _]]]].
  exists d. auto.
Defined.

(** X9: every block is accounted for once: the printed diagnostics and
    the returned pairs together number the blocks. *)
Theorem clean_data_accounts_for_blocks (raw_data : list string) :
  (List.length (fst (clean_data raw_data))
   + match snd (clean_data raw_data) with
     | Some pairs => List.length pairs
     | None => O
     end)%nat = List.length raw_data.
Proof.
  rewrite clean_data_spec. simpl. rewrite <- (clean_data_counts raw_data).
  destruct (surviving_pairs raw_data); reflexivity.
Qed.

Lemma prefix_drop (sep : string) : forall s,
  String.prefix sep s = true -> s = sep ++ str_drop (String.length sep) s.
Proof.
  induction sep as [|a sep IH]; intros s H; [reflexivity|].
  destruct s as [|b s]; [discriminate|]. simpl in H |- *.
  destruct (ascii_dec a b) as [<-|]; [|discriminate]. f_equal. now apply IH.
Qed.

Lemma length_str_drop (n : nat) (s : string) :
  String.length (str_drop n s) = (String.length s - n)%nat.
Proof.
  revert s; induction n as [|n IH]; intros s; [simpl; lia|].
  destruct s as [|c s]; [reflexivity|]. simpl. apply IH.
Qed.

Lemma split_fuel_concat (sep : string) (Hsep : sep <> "") : forall fuel s acc,
  (String.length s < fuel)%nat ->
  String.concat sep (split_fuel fuel sep s acc) = acc ++ s.
Proof.
  induction fuel as [|f IH]; intros s acc Hf; [simpl in Hf; lia|].
  destruct s as [|c r]; [simpl; now rewrite str_append_nil_r|].
  cbn [split_fuel]. destruct (String.prefix sep (String c r)) eqn:Ep.
  - pose proof (prefix_drop sep _ Ep) as Hs.
    assert (Hl : String.length sep <> O) by (destruct sep; [congruence | discriminate]).
    assert (Hf' : (String.length (str_drop (String.length sep) (String c r)) < f)%nat)
      by (rewrite length_str_drop; cbn [String.length] in Hf |- *; lia).
    pose proof (IH _ "" Hf') as Hc.
    pose proof (split_fuel_nonempty f sep (str_drop (String.length sep) (String c r)) "") as Hne.
    destruct (split_fuel f sep (str_drop (String.length sep) (String c r)) "") as [|x xs];
      [congruence|].
    change (String.concat sep (acc :: x :: xs)) with (acc ++ sep ++ String.concat sep (x :: xs)).
    rewrite Hc. simpl. rewrite Hs at 2. reflexivity.
  - simpl in Hf. rewrite IH by lia. rewrite str_append_assoc. reflexivity.
Qed.

Lemma str_split_concat (sep s : string) :
  sep <> "" -> String.concat sep (str_split sep s) = s.
Proof. intros H. apply (split_fuel_concat sep H). lia. Qed.

Lemma py_slice_all {A} (l : list A) : py_slice l 0 (Z.of_nat (List.length l)) = l.
Proof.
  rewrite py_slice_nonneg by lia. simpl skipn. rewrite Z.sub_0_r, Nat2Z.id.
  apply firstn_all.
Qed.



(** X11: with the default indices and a non-empty delimiter, the blocks
    [get_data_from_file] returns are never an empty list, and joining them
    with the delimiter gives back the file content. *)
Theorem get_data_from_file_round_trip (fs : file_system)
    (file_to_read_from delimiter content : string)
    (Hfile : fs file_to_read_from = Some content) (Hdelim : delimiter <> "") :
  exists blocks,
    get_data_from_file fs file_to_read_from delimiter 0 None = Done blocks
    /\ blocks <> [] /\ String.concat delimiter blocks = content.
Proof.
  exists (str_split delimiter content).
  unfold get_data_from_file, segment, py_split, slice_blocks. rewrite Hfile.
  destruct delimiter as [|c d]; [congruence|]. rewrite py_slice_all.
  split; [reflexivity|]. split; [apply split_fuel_nonempty|].
  apply str_split_concat. exact Hdelim.
Qed.

Lemma get_data_from_file_round_trip_witness :
  exists blocks,
    get_data_from_file (fun _ => Some "a---b---") "f.dat" DELIMITER 0 None = Done blocks
    /\ String.concat DELIMITER blocks = "a---b---".
Proof.
  destruct (get_data_from_file_round_trip (fun _ => Some "a---b---") "f.dat" DELIMITER
              "a---b---" eq_refl ltac:(discriminate)) as [blocks [H1 [_ H2]]].
  exists blocks. auto.
Defined.

Lemma populate_fold (pairs : list (string * string)) : forall reg,
  fold_left (fun reg d => populate_dataset (fst d) (snd d) reg) pairs reg
  = (reg ++ map (fun p => Data_init (fst p) (snd p)) pairs)%list.
Proof.
  induction pairs as [|p ps IH]; intros reg; simpl; [now rewrite app_nil_r|].
  rewrite IH. unfold populate_dataset. now rewrite <- app_assoc.
Qed.

Lemma main_read (fs : file_system) (content : string)
    (Hfile : fs "EmotionalClimateData.dat" = Some content) :
  main fs
  = (extraction_diagnostics (main_blocks content),
     match surviving_pairs (main_blocks content) with
     | [] => Failed (Raised TypeError)
     | pairs =>
         match update_all (map (fun p => Data_init (fst p) (snd p)) pairs) with
         | (objs, None) => Done (order_weights objs)
         | (_, Some e) => Failed (Raised e)
         end
     end).
Proof.
  unfold main, get_data_from_file. rewrite Hfile. cbn [segment py_split DELIMITER].
  fold DELIMITER. fold (main_blocks content). rewrite clean_data_spec.
  destruct (surviving_pairs (main_blocks content)) as [|p ps]; [reflexivity|].
  cbn [none_if_empty]. rewrite populate_fold, app_nil_l.
  destruct (update_all _) as [objs [e|]]; reflexivity.
Qed.

Lemma main_blocks_short (content : string) :
  (List.length (str_split DELIMITER content) <= 5)%nat -> main_blocks content = [].
Proof.
  intros H. unfold main_blocks, slice_blocks. rewrite py_slice_nonneg by lia.
  rewrite (@skipn_all2 _ (Z.to_nat 5)) by lia. apply firstn_nil.
Qed.

Lemma np_mean_err (ws : list (option Q)) e : np_mean ws = Err e -> e = TypeError.
Proof.
  destruct ws as [|w0 rest]; simpl; [discriminate|].
  destruct (object_add_reduce w0 rest) as [[t|]|e'] eqn:E; intros H;
    [discriminate | congruence |].
  injection H as <-. exact (object_add_reduce_err _ _ _ E).
Qed.

Lemma update_all_unknown (pairs : list (string * string)) :
  (exists p, In p pairs /\ exists t, In t (str_split " " (snd p)) /\ ~ In t lexicon) ->
  snd (update_all (map (fun p => Data_init (fst p) (snd p)) pairs)) = Some TypeError.
Proof.
  induction pairs as [|p ps IH]; intros [q [Hq Hunk]]; [destruct Hq|].
  cbn [map update_all]. unfold update_weights, update_average_weight. simpl.
  destruct (np_mean (find_weights (snd p))) as [m|e] eqn:E.
  - destruct (update_all (map (fun p => Data_init (fst p) (snd p)) ps)) as [rest err] eqn:Er.
    simpl. destruct Hq as [->|Hq].
    + apply find_weights_none in Hunk. rewrite (np_mean_none _ Hunk) in E. discriminate.
    + exact (IH (ex_intro _ q (conj Hq Hunk))).
  - simpl. now rewrite (np_mean_err _ _ E).
Qed.

Lemma update_all_known (pairs : list (string * string)) :
  Forall (fun p => known_body (snd p)) pairs ->
  update_all (map (fun p => Data_init (fst p) (snd p)) pairs)
  = (map final_object pairs, None).
Proof.
  induction 1 as [|p ps Hp _ IH]; [reflexivity|].
  cbn [map update_all]. unfold update_weights, update_average_weight. simpl.
  destruct (mean_of_known_words (snd p) Hp) as [m [Hm _]].
  rewrite Hm, IH. unfold final_object, body_average. rewrite Hm. reflexivity.
Qed.

Lemma body_average_known (b : string) :
  known_body b -> exists m, body_average b = Num m /\ (0 <= m <= 1)%Q.
Proof.
  intros Hk. destruct (mean_of_known_words b Hk) as [m [Hm Hb]].
  exists m. unfold body_average. rewrite Hm. auto.
Qed.

Lemma order_weights_perm (objs : registry) :
  Permutation (order_weights objs) (map (fun o => (feeling o, average_weight o)) objs).
Proof. apply sort_reverse_perm. Qed.

Lemma order_weights_sorted (objs : registry) :
  Forall (fun o => exists q, average_weight o = Num q) objs ->
  StronglySorted (fun p1 p2 => num_lt (snd p1) (snd p2) = false) (order_weights objs).
Proof.
  intros Hdef. destruct (defined_entries _ Hdef) as [lq Hlq].
  unfold order_weights. rewrite Hlq.
  rewrite (sort_reverse_map entry_lt) by reflexivity.
  apply StronglySorted_map, sort_reverse_nonincreasing.
Qed.

Lemma known_pairs_check (pairs : list (string * string)) :
  forallb (fun p => forallb (fun t => existsb (String.eqb t) lexicon)
                            (str_split " " (snd p))) pairs = true ->
  Forall (fun p => known_body (snd p)) pairs.
Proof.
  intros H. apply Forall_forall. intros p Hp t Ht.
  rewrite forallb_forall in H. specialize (H p Hp).
  rewrite forallb_forall in H. specialize (H t Ht).
  apply existsb_exists in H. destruct H as [k [Hk Ek]].
  apply String.eqb_eq in Ek. subst k. exact Hk.
Qed.



(** X13: when no block of the file yields a feeling, [main] prints the
    diagnostics and then fails with [TypeError], because [clean_data]
    returns [None] and [main] iterates over it; a file with at most five
    blocks leaves no block to read and fails the same way, printing
    nothing. *)
Theorem main_no_feeling (fs : file_system) (content : string)
    (Hfile : fs "EmotionalClimateData.dat" = Some content) :
  (surviving_pairs (main_blocks content) = [] ->
   main fs = (extraction_diagnostics (main_blocks content), Failed (Raised TypeError)))
  /\ ((List.length (str_split DELIMITER content) <= 5)%nat ->
      main fs = ([], Failed (Raised TypeError))).
Proof.
  split.
  - intros Hnone. rewrite (main_read fs content Hfile), Hnone. reflexivity.
  - intros Hshort. rewrite (main_read fs content Hfile), (main_blocks_short content Hshort).
    reflexivity.
Qed.

Lemma main_no_feeling_witness :
  main (single_file "EmotionalClimateData.dat" "a---b---[Bored] Never")
  = ([], Failed (Raised TypeError)).
Proof.
  apply (main_no_feeling (single_file "EmotionalClimateData.dat" "a---b---[Bored] Never")
           "a---b---[Bored] Never" eq_refl).
  vm_compute. lia.
Defined.

(** X14: when a surviving body contains a word outside the dictionary,
    [main] prints the diagnostics and ends with the [TypeError] of
    [np.mean]; nothing is ranked. *)
Theorem main_unknown_word (fs : file_system) (content : string)
    (Hfile : fs "EmotionalClimateData.dat" = Some content)
    (Hunknown : exists p, In p (surviving_pairs (main_blocks content))
                /\ exists t, In t (str_split " " (snd p)) /\ ~ In t lexicon) :
  main fs = (extraction_diagnostics (main_blocks content), Failed (Raised TypeError)).
Proof.
  rewrite (main_read fs content Hfile).
  pose proof (update_all_unknown _ Hunknown) as Hu.
  destruct (surviving_pairs (main_blocks content)) as [|p ps];
    [destruct Hunknown as [? [[] _]]|].
  destruct (update_all (map (fun p => Data_init (fst p) (snd p)) (p :: ps))) as [objs err].
  simpl in Hu. subst err. reflexivity.
Qed.

(** X15: when some block yields a feeling and every surviving body uses
    only dictionary words, [main] prints the diagnostics and then ranks
    each [(feeling, body)] pair once with the mean of its weights, from the
    largest mean to the smallest, every mean between 0 and 1. *)
Theorem main_ranking (fs : file_system) (content : string)
    (Hfile : fs "EmotionalClimateData.dat" = Some content)
    (Hsome : surviving_pairs (main_blocks content) <> [])
    (Hknown : Forall (fun p => known_body (snd p)) (surviving_pairs (main_blocks content))) :
  exists ranking,
    main fs = (extraction_diagnostics (main_blocks content), Done ranking)
    /\ Permutation ranking
         (map (fun p => (fst p, body_average (snd p))) (surviving_pairs (main_blocks content)))
    /\ StronglySorted (fun p1 p2 => num_lt (snd p1) (snd p2) = false) ranking
    /\ Forall (fun e => exists m, snd e = Num m /\ (0 <= m <= 1)%Q) ranking.
Proof.
  rewrite (main_read fs content Hfile).
  pose proof (update_all_known _ Hknown) as Hu.
  remember (surviving_pairs (main_blocks content)) as pairs eqn:Ep.
  clear Ep. destruct pairs as [|p0 ps]; [congruence|].
  set (pairs := p0 :: ps) in *.
  change (map (fun p => Data_init (fst p) (snd p)) (p0 :: ps))
    with (map (fun p => Data_init (fst p) (snd p)) pairs).
  rewrite Hu. exists (order_weights (map final_object pairs)).
  assert (Hmap : map (fun o => (feeling o, average_weight o)) (map final_object pairs)
                 = map (fun p => (fst p, body_average (snd p))) pairs)
    by (rewrite map_map; reflexivity).
  split; [reflexivity|]. split; [|split].
  - rewrite <- Hmap. apply order_weights_perm.
  - apply order_weights_sorted. apply Forall_map.
    eapply Forall_impl; [|exact Hknown]. intros p Hp.
    destruct (body_average_known _ Hp) as [m [Hm _]]. exists m. exact Hm.
  - apply (Permutation_Forall (Permutation_sym (order_weights_perm _))).
    rewrite Hmap. apply Forall_map.
    eapply Forall_impl; [|exact Hknown]. intros p Hp. exact (body_average_known _ Hp).
Qed.

Lemma main_unknown_word_witness :
  snd (main (single_file "EmotionalClimateData.dat" "0---1---2---3---4---[Bored] Never Syzygy"))
  = Failed (Raised TypeError).
Proof.
  rewrite (main_unknown_word
             (single_file "EmotionalClimateData.dat" "0---1---2---3---4---[Bored] Never Syzygy")
             "0---1---2---3---4---[Bored] Never Syzygy" eq_refl).
  - reflexivity.
  - exists ("Bored", "Never Syzygy"). split; [vm_compute; tauto|].
    exists "Syzygy". split; [vm_compute; tauto | vm_compute; intuition discriminate].
Defined.

Lemma main_ranking_witness :
  exists ranking,
    main (single_file "EmotionalClimateData.dat"
            "0---1---2---3---4---[Bored] Never Always---[Calm] Often")
    = ([], Done ranking)
    /\ Forall (fun e => exists m, snd e = Num m /\ (0 <= m <= 1)%Q) ranking.
Proof.
  destruct (main_ranking
              (single_file "EmotionalClimateData.dat"
                 "0---1---2---3---4---[Bored] Never Always---[Calm] Often")
              "0---1---2---3---4---[Bored] Never Always---[Calm] Often" eq_refl)
    as [ranking [Hm [_ [_ Hb]]]].
  - vm_compute. discriminate.
  - apply known_pairs_check. vm_compute. reflexivity.
  - exists ranking. split; [exact Hm | exact Hb].
Defined.

Lemma str_length_app (a b : string) :
  String.length (a ++ b) = (String.length a + String.length b)%nat.
Proof. induction a as [|c a IH]; simpl; [reflexivity|]. now rewrite IH. Qed.

Lemma count_char_app (c : ascii) (a b : string) :
  count_char c (a ++ b) = (count_char c a + count_char c b)%nat.
Proof. induction a as [|d a IH]; simpl; [reflexivity|]. rewrite IH. lia. Qed.

Lemma all_word_no_close (w : string) : all_word w = true -> count_char "]" w = O.
Proof.
  induction w as [|c w IH]; simpl; [reflexivity|].
  intros H. apply andb_prop in H. destruct H as [Hc Hw].
  destruct (Ascii.eqb_spec c "]") as [->|Hne]; [discriminate|]. simpl. auto.
Qed.

Lemma take_word_all_word (w post : string) :
  all_word w = true -> take_word (w ++ String "]" post) = (w, String "]" post).
Proof.
  induction w as [|c w IH]; simpl; [reflexivity|].
  intros H. apply andb_prop in H. destruct H as [Hc Hw].
  rewrite Hc, (IH Hw). reflexivity.
Qed.

Lemma match_at_other (c : ascii) (r : string) : c <> "["%char -> match_at (String c r) = None.
Proof.
  intros Hc. unfold match_at.
  destruct c as [[] [] [] [] [] [] [] []]; try reflexivity; congruence.
Qed.

Lemma match_at_label (w post : string) :
  w <> "" -> all_word w = true ->
  match_at ("[" ++ w ++ "]" ++ post) = Some (w, post).
Proof.
  intros Hne Hw. change ("[" ++ w ++ "]" ++ post) with (String "[" (w ++ String "]" post)).
  unfold match_at. rewrite (take_word_all_word w post Hw).
  destruct w; [congruence | reflexivity].
Qed.

Lemma findall_skip (pre s : string) : forall fuel,
  count_char "[" pre = O -> (String.length pre < fuel)%nat ->
  findall_fuel fuel (pre ++ s) = findall_fuel (fuel - String.length pre) s.
Proof.
  induction pre as [|c r IH]; intros fuel Hb Hf.
  - simpl. now rewrite Nat.sub_0_r.
  - destruct fuel as [|f]; [simpl in Hf; lia|].
    simpl in Hb. destruct (Ascii.eqb_spec c "[") as [->|Hc]; [discriminate|].
    simpl in Hb. cbn [String.append findall_fuel].
    rewrite (match_at_other c (r ++ s) Hc).
    simpl in Hf. rewrite IH by (auto; lia). reflexivity.
Qed.

Lemma extract_feeling_first_label (pre w post : string) :
  count_char "[" pre = O -> w <> "" -> all_word w = true ->
  extract_feeling (pre ++ "[" ++ w ++ "]" ++ post) 0 = Ok w.
Proof.
  intros Hb Hne Hw. unfold extract_feeling, findall_bracketed.
  rewrite findall_skip by (auto; rewrite str_length_app; lia).
  rewrite str_length_app.
  replace (S (String.length pre + String.length ("[" ++ w ++ "]" ++ post)) - String.length pre)%nat
    with (S (String.length ("[" ++ w ++ "]" ++ post))) by lia.
  change ("[" ++ w ++ "]" ++ post) with (String "[" (w ++ "]" ++ post)).
  cbn [findall_fuel].
  rewrite (match_at_label w post Hne Hw
           : match_at (String "[" (w ++ "]" ++ post)) = Some (w, post)).
  cbn [List.length nth]. destruct (Z.ltb_spec 0 0); [lia|].
  match goal with |- context [(Z.of_nat (S ?n) <=? 0)%Z] =>
    destruct (Z.leb_spec (Z.of_nat (S n)) 0); [lia|] end.
  reflexivity.
Qed.

(** X16: with the default [subgroup = 0], [extract_feeling] returns the
    first bracketed label of the block: a non-empty run of word characters
    in brackets, with no [[] before it, is the feeling, whatever follows. *)
Theorem extract_feeling_first (pre w post : string)
    (Hno_open : count_char "[" pre = O) (Hnonempty : w <> "")
    (Hword : all_word w = true) :
  extract_feeling (pre ++ "[" ++ w ++ "]" ++ post) 0 = Ok w.
Proof. exact (extract_feeling_first_label pre w post Hno_open Hnonempty Hword). Qed.

Lemma extract_feeling_first_witness :
  extract_feeling ("How do you feel? " ++ "[" ++ "Bored" ++ "]" ++ " [Calm] Never") 0
  = Ok "Bored".
Proof. apply extract_feeling_first; [reflexivity | discriminate | reflexivity]. Defined.

(** X17: [clean_data] on one block whose text before the first bracketed
    label has no bracket: it prints nothing and returns the label with the
    text after it, newlines turned into spaces and stripped. *)
Theorem clean_data_labelled_block (pre w post : string)
    (Hno_bracket : count_char "[" pre = O /\ count_char "]" pre = O)
    (Hnonempty : w <> "") (Hword : all_word w = true) :
  clean_data [pre ++ "[" ++ w ++ "]" ++ post]
  = ([], Some [(w, py_strip (replace_char newline " " post))]).
Proof.
  destruct Hno_bracket as [Ho Hc].
  rewrite clean_data_spec. unfold extraction_diagnostics, surviving_pairs.
  cbn [flat_map]. rewrite (extract_feeling_first_label pre w post Ho Hnonempty Hword).
  replace (pre ++ "[" ++ w ++ "]" ++ post) with ((pre ++ "[" ++ w) ++ String "]" post)
    by (rewrite !str_append_assoc; reflexivity).
  rewrite strip_data_after_bracket; [reflexivity|].
  rewrite !count_char_app, Hc, (all_word_no_close w Hword). reflexivity.
Qed.

Lemma clean_data_labelled_block_witness :
  clean_data ["How do you feel? " ++ "[" ++ "Bored" ++ "]" ++ " Never [x]"]
  = ([], Some [("Bored", "Never [x]")]).
Proof.
  rewrite clean_data_labelled_block.
  - reflexivity.
  - split; reflexivity.
  - discriminate.
  - reflexivity.
Defined.
